(** * MacHyperVSupport: the VMBus device nub and the synthetic keyboard

    A shallow embedding of
      - [VMBusController/VMBusDriver.hpp]   (constants and the channel record),
      - [VMBusDevice/HyperVVMBusDevice.cpp] (attach, detach, openChannel,
        closeChannel),
      - [Keyboard/HyperVKeyboard.cpp]       (start, connectKeyboard, getKeyCode,
        handleInterrupt, defaultKeymapOfLength).

    Member functions become functions in a small state-and-trace monad: the
    object's fields are the state, and every call that leaves the translated
    files (IOKit, the superclass, the VMBus controller, the private half of
    the nub) is recorded as an [Event], in call order, together with the
    answer it gave.  The answers are inputs of the model.  The calls that
    leave the translated files are opaque: they do not write the fields that
    are modelled here.  Conversions that neither change anything nor ask
    the environment ([OSDynamicCast], [OSMemberFunctionCast],
    [OSNumber::unsigned32BitValue], [snprintf]) are functions of the model
    and are not logged.  DBGLOG and SYSLOG lines have no effect on the
    state and are left out. *)

From Stdlib Require Import ZArith List Bool Lia Sorted Ascii.
Import ListNotations.
Open Scope Z_scope.

(** ** Machine integers and IOKit return codes *)

Definition UInt8 := Z.
Definition UInt16 := Z.
Definition UInt32 := Z.
Definition UInt64 := Z.
Definition IOReturn := Z.

Module IOKit.

(** [IOReturn.h]: err_system(0x38), err_sub(0), and the common error
    constructor. *)
Definition err_system (x : Z) : Z := Z.shiftl (Z.land x 0x3f) 26.
Definition err_sub (x : Z) : Z := Z.shiftl (Z.land x 0xfff) 14.
Definition sys_iokit : Z := err_system 0x38.
Definition sub_iokit_common : Z := err_sub 0.
Definition iokit_common_err (ret : Z) : Z :=
  Z.lor (Z.lor sys_iokit sub_iokit_common) ret.

Definition kIOReturnSuccess : IOReturn := 0.
Definition kIOReturnError : IOReturn := iokit_common_err 0x2bc.

(** The conversion C++ applies when an integer is returned from a function
    whose return type is [bool]. *)
Definition bool_of_integer (x : Z) : bool := negb (x =? 0).

End IOKit.

(** ** Objects and calls outside the translated files *)

(** An [IOInterruptEventSource] object, by identity. *)
Definition EventSourceRef := nat.

(** A block handed out by [IOMalloc], by address. *)
Definition Address := nat.

(** The work loop an event source is added to: the nub's own [workLoop]
    member, or the keyboard's [getWorkLoop()]. *)
Inductive WorkLoop := NubWorkLoop | KeyboardWorkLoop.

(** Who asks [IOInterruptEventSource::interruptEventSource] for a source:
    the nub on behalf of the channel's owner (two-argument call), or the
    keyboard driver for itself (call with provider and index 0). *)
Inductive Owner := ChannelOwner | KeyboardDriver.

(** Where [handleInterrupt] reads a packet into. *)
Inductive Buffer := data128 | heapBlock (a : Address).

Inductive Event :=
  (* HyperVVMBusDevice *)
  | SuperAttach (ok : bool)
  | GetProperty (channelNumber : option Z)
  | GetProvider (isController : bool)
  | SetLocation (channel : UInt32)
  | SuperDetach
  | SetupInterrupt (ok : bool)
  | TeardownInterrupt
  | InterruptEventSource (owner : Owner) (created : option EventSourceRef)
  | AddEventSource (wl : WorkLoop) (s : EventSourceRef)
  | RemoveEventSource (wl : WorkLoop) (s : EventSourceRef)
  | Enable (s : EventSourceRef)
  | Disable (s : EventSourceRef)
  | Release (s : EventSourceRef)
  | InitVMBusChannel (channel txSize rxSize : UInt32) (ok : bool)
  | OpenVMBusChannel (channel : UInt32) (ok : bool)
  (* HyperVKeyboard *)
  | SuperStart (ok : bool)
  | SuperStop
  | RetainDevice
  | WriteInbandProtocolRequest (versionRequested : UInt32)
                               (requestCompletion : bool)
  | NextInbandPacketAvailable (len : option UInt32)
  | IOMalloc (a : Address) (size : UInt32)
  | IOFree (buf : Buffer) (size : UInt32)
  | ReadInbandCompletionPacket (buf : Buffer) (len : UInt32) (status : IOReturn)
  | ClockGetUptime (time : UInt64)
  | DispatchKeyboardEvent (key : UInt32) (goingDown : bool) (time : UInt64).

(** ** The state-and-trace monad *)

Module Run.

Definition t (S A : Type) : Type := S -> A * S * list Event.

Definition ret {S A} (a : A) : t S A := fun s => (a, s, []).

Definition bind {S A B} (m : t S A) (k : A -> t S B) : t S B :=
  fun s =>
    let '(a, s1, e1) := m s in
    let '(b, s2, e2) := k a s1 in
    (b, s2, e1 ++ e2).

Definition get {S} : t S S := fun s => (s, s, []).
Definition put {S} (s : S) : t S unit := fun _ => (tt, s, []).
Definition modify {S} (f : S -> S) : t S unit := fun s => (tt, f s, []).
Definition call {S} (e : Event) : t S unit := fun s => (tt, s, [e]).

(** Run a computation on a component of a larger state. *)
Definition zoom {S W A} (proj : W -> S) (upd : S -> W -> W) (m : t S A)
  : t W A :=
  fun w => let '(a, s, e) := m (proj w) in (a, upd s w, e).

Definition result {S A} (r : A * S * list Event) : A := fst (fst r).
Definition state {S A} (r : A * S * list Event) : S := snd (fst r).
Definition events {S A} (r : A * S * list Event) : list Event := snd r.

End Run.

Declare Scope run_scope.
Delimit Scope run_scope with run.
Notation "x <- m ;; k" := (Run.bind m (fun x => k))
  (at level 61, m at next level, right associativity) : run_scope.
Notation "m ;; k" := (Run.bind m (fun _ => k))
  (at level 61, right associativity) : run_scope.

(** ** VMBusDriver.hpp *)

Module VMBusDriver.

Definition kVMBusArrayInitialChildrenCount : Z := 10.
Definition kHyperVMaxChannels : Z := 256.

(** "Unknown why this is the start handle, Linux and BSD both do this." *)
Definition kHyperVGpadlStartHandle : UInt32 := 0xE1E10.

(** [HyperVDMABuffer]; the descriptor, the DMA command and the mapped
    buffer are object references, [None] for NULL. *)
Record HyperVDMABuffer := mkDMABuffer {
  bufDesc : option nat;
  dmaCmd : option nat;
  physAddr : Z;
  buffer : option nat;
  size : Z
}.

Inductive VMBusChannelStatus :=
  | kVMBusChannelStatusNotPresent
  | kVMBusChannelStatusClosed
  | kVMBusChannelStatusGpadlConfigured
  | kVMBusChannelStatusOpen.

Definition VMBusChannelStatus_value (s : VMBusChannelStatus) : Z :=
  match s with
  | kVMBusChannelStatusNotPresent => 0
  | kVMBusChannelStatusClosed => 1
  | kVMBusChannelStatusGpadlConfigured => 2
  | kVMBusChannelStatusOpen => 3
  end.

(** [VMBusChannel], "used for per-channel tracking of buffers and stats".
    The [typeGuidString] and [offerMessage] members are left out: their
    types come from headers that are not among the translated files.
    [txBuffer] and [rxBuffer] are pointers to ring-buffer headers. *)
Record VMBusChannel := mkChannel {
  status : VMBusChannelStatus;
  (** "Unique GPADL handle for this channel." *)
  gpadlHandle : UInt32;
  dataBuffer : HyperVDMABuffer;
  eventBuffer : HyperVDMABuffer;
  (** "Index into ring buffer where receive pages begin." *)
  rxPageIndex : UInt16;
  txBuffer : option nat;
  rxBuffer : option nat
}.

(** Every GPADL handle a channel record stores. *)
Definition gpadlHandles (c : VMBusChannel) : list UInt32 := [gpadlHandle c].

(** Every DMA buffer a channel record stores. *)
Definition dmaBuffers (c : VMBusChannel) : list HyperVDMABuffer :=
  [dataBuffer c; eventBuffer c].

End VMBusDriver.

(** ** HyperVVMBusDevice.cpp *)

Module HyperVVMBusDevice.

Import Run.
Local Open Scope run_scope.

(** The members of the nub that the translated functions read or write.
    [workLoop] and [vmbusProvider] are only dereferenced: [vmbusProvider]
    is not NULL on a nub whose [attach] returned true, and [workLoop] is
    valid once [setupInterrupt] has returned true. *)
Record Nub := mkNub {
  channelIsOpen : bool;
  channelId : UInt32;
  txBufferSize : UInt32;
  rxBufferSize : UInt32;
  childInterruptSource : option EventSourceRef
}.

Definition set_channelIsOpen (b : bool) (d : Nub) : Nub :=
  mkNub b (channelId d) (txBufferSize d) (rxBufferSize d)
        (childInterruptSource d).
Definition set_channelId (v : UInt32) (d : Nub) : Nub :=
  mkNub (channelIsOpen d) v (txBufferSize d) (rxBufferSize d)
        (childInterruptSource d).
Definition set_txBufferSize (v : UInt32) (d : Nub) : Nub :=
  mkNub (channelIsOpen d) (channelId d) v (rxBufferSize d)
        (childInterruptSource d).
Definition set_rxBufferSize (v : UInt32) (d : Nub) : Nub :=
  mkNub (channelIsOpen d) (channelId d) (txBufferSize d) v
        (childInterruptSource d).
Definition set_childInterruptSource (v : option EventSourceRef) (d : Nub)
  : Nub :=
  mkNub (channelIsOpen d) (channelId d) (txBufferSize d) (rxBufferSize d) v.

(** A freshly allocated object: IOKit zero-fills it. *)
Definition zeroed : Nub := mkNub false 0 0 0 None.

(** What the environment answers during one [attach]. *)
Record AttachAnswers := mkAttachAnswers {
  superAttach_ok : bool;
  (** the [kHyperVVMBusDeviceChannelIDKey] property, when it is an
      [OSNumber] *)
  channelNumber : option Z;
  (** whether the provider is a [HyperVVMBusController] *)
  providerIsController : bool
}.

(** [OSNumber::unsigned32BitValue]. *)
Definition unsigned32BitValue (v : Z) : UInt32 := Z.land v 0xFFFFFFFF.

Definition attach (env : AttachAnswers) : Run.t Nub bool :=
  call (SuperAttach (superAttach_ok env)) ;;
  if negb (superAttach_ok env) then ret false else
  modify (set_channelIsOpen false) ;;
  call (GetProperty (channelNumber env)) ;;
  call (GetProvider (providerIsController env)) ;;
  match channelNumber env with
  | None => ret false
  | Some n =>
      if negb (providerIsController env) then ret false else
      modify (set_channelId (unsigned32BitValue n)) ;;
      d <- get ;;
      call (SetLocation (channelId d)) ;;
      ret true
  end.

(** What the environment answers during one [openChannel]. *)
Record OpenAnswers := mkOpenAnswers {
  setupInterrupt_ok : bool;
  (** the result of [IOInterruptEventSource::interruptEventSource(owner,
      intAction)], [None] for NULL *)
  childSource_new : option EventSourceRef;
  initVMBusChannel_ok : bool;
  openVMBusChannel_ok : bool
}.

Definition setupInterrupt (env : OpenAnswers) : Run.t Nub bool :=
  call (SetupInterrupt (setupInterrupt_ok env)) ;;
  ret (setupInterrupt_ok env).

Definition teardownInterrupt : Run.t Nub unit := call TeardownInterrupt.

Definition isNULL {A} (p : option A) : bool :=
  match p with None => true | Some _ => false end.

(** [openChannel(txSize, rxSize, owner, intAction)].  [owner] and
    [intAction] are pointers. *)
Definition openChannel (txSize rxSize : UInt32)
    (owner intAction : option nat) (env : OpenAnswers) : Run.t Nub bool :=
  d <- get ;;
  if channelIsOpen d then ret true else
  modify (set_txBufferSize txSize) ;;
  modify (set_rxBufferSize rxSize) ;;
  ok <- setupInterrupt env ;;
  if negb ok then ret false else
  let provider_calls : Run.t Nub bool :=
    d <- get ;;
    call (InitVMBusChannel (channelId d) (txBufferSize d) (rxBufferSize d)
                           (initVMBusChannel_ok env)) ;;
    call (OpenVMBusChannel (channelId d) (openVMBusChannel_ok env)) ;;
    ret true in
  if negb (isNULL owner) && negb (isNULL intAction) then
    call (InterruptEventSource ChannelOwner (childSource_new env)) ;;
    modify (set_childInterruptSource (childSource_new env)) ;;
    match childSource_new env with
    | None => ret (IOKit.bool_of_integer IOKit.kIOReturnError)
    | Some s =>
        call (AddEventSource NubWorkLoop s) ;;
        call (Enable s) ;;
        provider_calls
    end
  else provider_calls.

Definition closeChannel : Run.t Nub unit :=
  d <- get ;;
  match childInterruptSource d with
  | Some s =>
      call (Disable s) ;;
      call (RemoveEventSource NubWorkLoop s) ;;
      modify (set_childInterruptSource None)
  | None => ret tt
  end ;;
  (* TODO: close channel. *)
  teardownInterrupt.

Definition detach : Run.t Nub unit :=
  d <- get ;;
  (if channelIsOpen d then closeChannel else ret tt) ;;
  call SuperDetach.

End HyperVVMBusDevice.

(** ** The GPADL registry *)

Module GpadlRegistry.

Import VMBusDriver.

(** Modelled from the spec: the controller code that hands out GPADL
    handles is not among the translated files; only its starting constant
    [kHyperVGpadlStartHandle] is.  Following the specification, the
    registry owns one counter that starts at the fixed base value;
    registering a buffer issues the counter's value as the handle and
    increments the counter; tearing a handle down forgets the handle and
    leaves the counter alone.  A GPADL handle is a 32-bit number (the wire
    format carries it in 32 bits and the channel record stores it in a
    [UInt32]), so the counter is one too and its increment wraps round at
    2^32. *)
Record Registry := mkRegistry {
  nextGpadlHandle : UInt32;
  registered : list UInt32
}.

(** Modelled from the spec: a new registry; the counter is at the fixed
    starting value. *)
Definition init : Registry := mkRegistry kHyperVGpadlStartHandle [].

(** Modelled from the spec: [register] allocates the next handle; the
    32-bit counter is incremented modulo 2^32. *)
Definition register (r : Registry) : UInt32 * Registry :=
  (nextGpadlHandle r,
   mkRegistry ((nextGpadlHandle r + 1) mod 2 ^ 32)
              (nextGpadlHandle r :: registered r)).

(** Modelled from the spec: [teardown] never makes a handle available
    again. *)
Definition teardown (h : UInt32) (r : Registry) : Registry :=
  mkRegistry (nextGpadlHandle r) (remove Z.eq_dec h (registered r)).

Inductive Op := Register | Teardown (h : Z).

(** The handles issued, in order, by a sequence of operations. *)
Fixpoint issued (ops : list Op) (r : Registry) : list Z :=
  match ops with
  | [] => []
  | Register :: ops' =>
      let '(h, r') := register r in h :: issued ops' r'
  | Teardown h :: ops' => issued ops' (teardown h r)
  end.


End GpadlRegistry.

(** ** HyperVKeyboard.cpp *)

Module HyperVKeyboard.

Import Run.
Local Open Scope run_scope.

(** The keystroke members that the driver reads. *)
Record HyperVKeyboardMessageKeystroke := mkKeystroke {
  makeCode : UInt16;
  isE0 : bool;
  isBreak : bool
}.

(** [HyperVKeyboardMessage] is a union discriminated by [header.type]. *)
Inductive HyperVKeyboardMessage :=
  | ProtocolResponse (status : UInt32)
  | KeyEvent (keystroke : HyperVKeyboardMessageKeystroke)
  | OtherMessage (type : UInt32).

(** The driver's members, and the nub it is started on. *)
Record Driver := mkDriver {
  hvDevice : bool;                         (* false for NULL *)
  interruptSource : option EventSourceRef;
  provider : HyperVVMBusDevice.Nub
}.

Definition set_hvDevice (b : bool) (k : Driver) : Driver :=
  mkDriver b (interruptSource k) (provider k).
Definition set_interruptSource (s : option EventSourceRef) (k : Driver)
  : Driver :=
  mkDriver (hvDevice k) s (provider k).
Definition set_provider (d : HyperVVMBusDevice.Nub) (k : Driver) : Driver :=
  mkDriver (hvDevice k) (interruptSource k) d.

(** What the environment answers during one [start]. *)
Record StartAnswers := mkStartAnswers {
  superStart_ok : bool;
  (** whether [provider] is a [HyperVVMBusDevice] *)
  providerIsNub : bool;
  (** the result of [IOInterruptEventSource::interruptEventSource(this,
      handleInterrupt, provider, 0)], [None] for NULL *)
  interruptSource_new : option EventSourceRef;
  openAnswers : HyperVVMBusDevice.OpenAnswers
}.

(** The heap as [IOMalloc] and [IOFree] see it: the live blocks with their
    sizes, and the next address to hand out.  [IOMalloc] is taken to
    succeed; the driver does not test its result. *)
Record Heap := mkHeap {
  live : list (Address * UInt32);
  fresh : Address
}.

Fixpoint release (a : Address) (l : list (Address * UInt32))
  : list (Address * UInt32) :=
  match l with
  | [] => []
  | (b, n) :: l' => if Nat.eqb a b then l' else (b, n) :: release a l'
  end.

Definition ioMalloc (size : UInt32) : Run.t Heap Address :=
  fun h =>
    (fresh h, mkHeap ((fresh h, size) :: live h) (S (fresh h)),
     [IOMalloc (fresh h) size]).

Definition ioFree (buf : Buffer) (size : UInt32) : Run.t Heap unit :=
  fun h =>
    (tt,
     match buf with
     | heapBlock a => mkHeap (release a (live h)) (fresh h)
     | data128 => h
     end,
     [IOFree buf size]).

(** One answer of the nub to the drain loop: the packet length that
    [nextInbandPacketAvailable] stores, what [readInbandCompletionPacket]
    then returns and leaves in the buffer, and the clock. *)
Record Inbound := mkInbound {
  pktDataLength : UInt32;
  readStatus : IOReturn;
  message : HyperVKeyboardMessage;
  uptime : UInt64
}.

Section Driver.

(** Constants and the scan-code table of [HyperVKeyboardRegs.hpp] and
    [HyperVADBMap.hpp], which are not among the translated files. *)
Variable kHyperVKeyboardRingBufferSize : UInt32.
Variable kHyperVKeyboardVersion : UInt32.
Variable kADBConverterExStart : Z.
Variable PS2ToADBMapStock : Z -> UInt8.

Definition sizeof_data128 : Z := 128.

Definition connectKeyboard : Run.t Driver bool :=
  call (WriteInbandProtocolRequest kHyperVKeyboardVersion true) ;;
  ret true.

(** [start] returns [None] when it dereferences a NULL pointer: the
    result of creating the interrupt source is used unchecked.  The call
    [openChannel(size, size)] passes no owner and no action; both are taken
    to default to NULL. *)
Definition start (env : StartAnswers) : Run.t Driver (option bool) :=
  call (SuperStart (superStart_ok env)) ;;
  if negb (superStart_ok env) then ret (Some false) else
  modify (set_hvDevice (providerIsNub env)) ;;
  if negb (providerIsNub env) then
    call SuperStop ;; ret (Some false)
  else
  call RetainDevice ;;
  call (InterruptEventSource KeyboardDriver (interruptSource_new env)) ;;
  modify (set_interruptSource (interruptSource_new env)) ;;
  match interruptSource_new env with
  | None => ret None
  | Some s =>
      call (AddEventSource KeyboardWorkLoop s) ;;
      call (Enable s) ;;
      opened <- zoom provider set_provider
                  (HyperVVMBusDevice.openChannel
                     kHyperVKeyboardRingBufferSize
                     kHyperVKeyboardRingBufferSize
                     None None (openAnswers env)) ;;
      if negb opened then
        call (Disable s) ;;
        call (RemoveEventSource KeyboardWorkLoop s) ;;
        call (Release s) ;;
        modify (set_interruptSource None) ;;
        call SuperStop ;;
        ret (Some false)
      else
        connectKeyboard ;;
        ret (Some true)
  end.

Definition getKeyCode (keyEvent : HyperVKeyboardMessageKeystroke)
  : UInt32 :=
  PS2ToADBMapStock
    (makeCode keyEvent + (if isE0 keyEvent then kADBConverterExStart else 0)).

(** The body of the drain loop after [nextInbandPacketAvailable] has
    returned true and stored [pktDataLength]. *)
Definition drainPacket (p : Inbound) : Run.t Heap unit :=
  buf <- (if pktDataLength p <=? sizeof_data128 then ret data128
          else a <- ioMalloc (pktDataLength p) ;; ret (heapBlock a)) ;;
  call (ReadInbandCompletionPacket buf (pktDataLength p) (readStatus p)) ;;
  (if readStatus p =? IOKit.kIOReturnSuccess then
     match message p with
     | ProtocolResponse _ => ret tt
     | KeyEvent keystroke =>
         call (ClockGetUptime (uptime p)) ;;
         call (DispatchKeyboardEvent (getKeyCode keystroke)
                                     (negb (isBreak keystroke))
                                     (uptime p))
     | OtherMessage _ => ret tt
     end
   else ret tt) ;;
  if sizeof_data128 <? pktDataLength p then ioFree buf (pktDataLength p)
  else ret tt.

(** [handleInterrupt].  The script lists what successive calls of
    [nextInbandPacketAvailable] answer: [Some p] for true, [None] for
    false; a script that has run out answers false.  The loop leaves at
    the first false answer, and the rest of the script is returned. *)
Fixpoint handleInterrupt (script : list (option Inbound))
  : Run.t Heap (list (option Inbound)) :=
  match script with
  | [] => call (NextInbandPacketAvailable None) ;; ret []
  | None :: rest => call (NextInbandPacketAvailable None) ;; ret rest
  | Some p :: rest =>
      call (NextInbandPacketAvailable (Some (pktDataLength p))) ;;
      drainPacket p ;;
      handleInterrupt rest
  end.

End Driver.

End HyperVKeyboard.

(** * Sample states and auxiliary definitions *)

Module Samples.

Import Run HyperVVMBusDevice.

(** A nub attached for channel 5. *)
Definition attached : Nub :=
  state (attach (mkAttachAnswers true (Some 5) true) zeroed).

(** Every call succeeds; a child source, if asked for, is object 7. *)
Definition all_ok : OpenAnswers := mkOpenAnswers true (Some 7%nat) true true.

(** The host turns the open request down. *)
Definition host_rejects_open : OpenAnswers :=
  mkOpenAnswers true (Some 7%nat) true false.

(** Buffer and GPADL setup fails in the controller. *)
Definition buffers_fail : OpenAnswers :=
  mkOpenAnswers true (Some 7%nat) false true.

(** [setupInterrupt] fails. *)
Definition interrupt_fails : OpenAnswers :=
  mkOpenAnswers false (Some 7%nat) true true.

(** The nub after a client has opened the channel with its own interrupt
    action. *)
Definition opened_with_child : Nub :=
  state (openChannel 4096 4096 (Some 1%nat) (Some 2%nat) all_ok attached).

End Samples.

Module Spec.

Import HyperVVMBusDevice.

(** The steps of an open that the specification lists as able to fail, read
    off the answers of one [openChannel] call: interrupt setup, buffer and
    GPADL setup, and the host's open result. *)
Definition some_step_fails (env : OpenAnswers) : bool :=
  negb (setupInterrupt_ok env)
  || negb (initVMBusChannel_ok env)
  || negb (openVMBusChannel_ok env).


(** The answers of one call with the controller's two results replaced. *)
Definition with_provider_results (env : OpenAnswers) (init open : bool)
  : OpenAnswers :=
  mkOpenAnswers (setupInterrupt_ok env) (childSource_new env) init open.

End Spec.

Module ChannelSamples.

Import VMBusDriver.

(** A channel record in the open state: rings of one page each inside one
    data buffer of two pages, the receive pages starting at page 1. *)
Definition open_channel : VMBusChannel :=
  mkChannel kVMBusChannelStatusOpen kHyperVGpadlStartHandle
            (mkDMABuffer (Some 1%nat) (Some 2%nat) 0x100000 (Some 3%nat) 8192)
            (mkDMABuffer (Some 4%nat) (Some 5%nat) 0x200000 (Some 6%nat) 4096)
            1 (Some 10%nat) (Some 11%nat).

(** The statement of the specification: the record holds two different
    GPADL handles. *)
Definition holds_two_distinct_handles (c : VMBusChannel) : Prop :=
  exists h1 h2,
    In h1 (gpadlHandles c) /\ In h2 (gpadlHandles c) /\ h1 <> h2.

End ChannelSamples.

Module DrainLog.

(** What handling one packet may call between the read and the release of
    the buffer: nothing, or the clock and then one keyboard event stamped
    with that time. *)
Inductive Dispatch : list Event -> Prop :=
  | dispatch_none : Dispatch []
  | dispatch_key time key goingDown :
      Dispatch [ClockGetUptime time; DispatchKeyboardEvent key goingDown time].


(** How many times the drain asked for the next packet. *)
Fixpoint polls (l : list Event) : nat :=
  match l with
  | [] => O
  | NextInbandPacketAvailable _ :: l' => S (polls l')
  | _ :: l' => polls l'
  end.

End DrainLog.

Module KeyboardSamples.

Import HyperVKeyboard.

Definition ringSize : UInt32 := 0x8000.
Definition version : UInt32 := 0x10000.
Definition exStart : Z := 0x80.
Definition table (i : Z) : UInt8 := Z.land (i + 1) 0xFF.

(** A driver object before [start], on the nub attached for channel 5. *)
Definition fresh_driver : Driver := mkDriver false None Samples.attached.

(** Answers of a [start] during which [setupInterrupt] fails in the nub. *)
Definition open_fails : StartAnswers :=
  mkStartAnswers true true (Some 9%nat) Samples.interrupt_fails.

Definition empty_heap : Heap := mkHeap [] 0%nat.

(** A key press of 24 bytes, a protocol response of 200 bytes whose read
    fails, and a key release of 4096 bytes. *)
Definition small_key : Inbound :=
  mkInbound 24 IOKit.kIOReturnSuccess (KeyEvent (mkKeystroke 0x1E false false))
            1000.
Definition large_failed : Inbound :=
  mkInbound 200 IOKit.kIOReturnError (ProtocolResponse 0) 2000.
Definition large_key : Inbound :=
  mkInbound 4096 IOKit.kIOReturnSuccess (KeyEvent (mkKeystroke 0x1E true true))
            3000.

End KeyboardSamples.

(** ** The location string of a nub *)

Module Location.

(** [attach] renders the channel number with [snprintf(channelLocation,
    sizeof (channelLocation), "%x", channelId)] into [char
    channelLocation[10]] and passes the buffer to [setLocation]; the event
    [SetLocation c] stands for that call, the string being
    [channelLocation c]. *)

Definition hexDigits : list ascii :=
  ["0"; "1"; "2"; "3"; "4"; "5"; "6"; "7"; "8"; "9";
   "a"; "b"; "c"; "d"; "e"; "f"]%char.

Definition hexDigit (d : Z) : ascii := nth (Z.to_nat d) hexDigits "0"%char.

(** The digits of ["%x"], least significant first: the conversion divides by
    16 until nothing is left and always yields one digit.  An [unsigned int]
    has 32 bits, hence at most [digitsOfUnsigned] digits. *)
Fixpoint hexDigitsOf (width : nat) (n : Z) : list Z :=
  match width with
  | O => []
  | S w => n mod 16 :: (if n / 16 =? 0 then [] else hexDigitsOf w (n / 16))
  end.

Definition digitsOfUnsigned : nat := 8.

Definition format_x (n : UInt32) : list ascii :=
  map hexDigit (rev (hexDigitsOf digitsOfUnsigned n)).

(** [snprintf] stores at most [size - 1] characters before the final NUL. *)
Definition snprintf (size : nat) (text : list ascii) : list ascii :=
  firstn (size - 1) text.

Definition sizeof_channelLocation : nat := 10.

Definition channelLocation (channelId : UInt32) : list ascii :=
  snprintf sizeof_channelLocation (format_x channelId).

(** Reading a location string back as a number. *)
Fixpoint digitIndex (c : ascii) (digits : list ascii) : Z :=
  match digits with
  | [] => 0
  | d :: digits' => if Ascii.eqb c d then 0 else 1 + digitIndex c digits'
  end.

Definition hexValue (text : list ascii) : Z :=
  fold_left (fun acc c => 16 * acc + digitIndex c hexDigits) text 0.

End Location.

(** ** Sequences of calls on a nub *)

Module NubCalls.

Import Run HyperVVMBusDevice.
Local Open Scope run_scope.

(** The public entry points of the nub, with the answers of the environment
    during the call. *)
Inductive Call :=
  | CallAttach (env : AttachAnswers)
  | CallOpenChannel (txSize rxSize : UInt32) (owner intAction : option nat)
                    (env : OpenAnswers)
  | CallCloseChannel
  | CallDetach.

Definition perform (c : Call) : Run.t Nub unit :=
  match c with
  | CallAttach env => attach env ;; ret tt
  | CallOpenChannel txSize rxSize owner intAction env =>
      openChannel txSize rxSize owner intAction env ;; ret tt
  | CallCloseChannel => closeChannel
  | CallDetach => detach
  end.

Fixpoint performAll (cs : list Call) : Run.t Nub unit :=
  match cs with
  | [] => ret tt
  | c :: cs' => perform c ;; performAll cs'
  end.

Definition isAttach (c : Call) : bool :=
  match c with CallAttach _ => true | _ => false end.

(** The channel a call into the controller names. *)
Definition controllerChannel (e : Event) : option UInt32 :=
  match e with
  | InitVMBusChannel channel _ _ _ => Some channel
  | OpenVMBusChannel channel _ => Some channel
  | _ => None
  end.

(** Whether an event is a call on an interrupt event source of the nub's
    client. *)
Definition touchesChildSource (e : Event) : bool :=
  match e with
  | InterruptEventSource ChannelOwner _ => true
  | AddEventSource NubWorkLoop _ => true
  | RemoveEventSource NubWorkLoop _ => true
  | Enable _ => true
  | Disable _ => true
  | _ => false
  end.

End NubCalls.

(** ** Reading the log of a drain *)

Module KeyboardLog.

Import HyperVKeyboard.

(** The packets a drain gets to see: those before the first answer that no
    packet is available. *)
Fixpoint processed (script : list (option Inbound)) : list Inbound :=
  match script with
  | Some p :: rest => p :: processed rest
  | _ => []
  end.

(** The answers a drain leaves for the next interrupt. *)
Fixpoint pending (script : list (option Inbound)) : list (option Inbound) :=
  match script with
  | Some _ :: rest => pending rest
  | None :: rest => rest
  | [] => []
  end.

(** The keyboard events of a log: key code, direction, time. *)
Definition dispatched (log : list Event) : list (UInt32 * bool * UInt64) :=
  flat_map (fun e => match e with
                     | DispatchKeyboardEvent key goingDown time =>
                         [(key, goingDown, time)]
                     | _ => []
                     end) log.

(** The reads of a log: requested length and returned status. *)
Definition reads (log : list Event) : list (UInt32 * IOReturn) :=
  flat_map (fun e => match e with
                     | ReadInbandCompletionPacket _ len status =>
                         [(len, status)]
                     | _ => []
                     end) log.

(** Whether an event is a call of the allocator. *)
Definition isAllocatorCall (e : Event) : bool :=
  match e with
  | IOMalloc _ _ => true
  | IOFree _ _ => true
  | _ => false
  end.

(** The keyboard events a list of packets stands for: one per keystroke
    message whose read succeeded. *)
Definition keystrokes (kADBConverterExStart : Z)
    (PS2ToADBMapStock : Z -> UInt8) (ps : list Inbound)
  : list (UInt32 * bool * UInt64) :=
  flat_map (fun p =>
              if readStatus p =? IOKit.kIOReturnSuccess then
                match message p with
                | KeyEvent keystroke =>
                    [(getKeyCode kADBConverterExStart PS2ToADBMapStock
                                 keystroke,
                      negb (isBreak keystroke), uptime p)]
                | _ => []
                end
              else []) ps.

End KeyboardLog.

(** ** The iterations of a drain *)

Module DrainIterations.

Import HyperVKeyboard DrainLog.

(** The log of a drain set against the packets it was offered, one
    iteration of the loop for each: the iteration for a packet of at most
    128 bytes asks for the length and reads into [data128], and calls the
    allocator nowhere; the iteration for a longer packet allocates a block
    of the packet's length after asking for the length, reads into it, and
    frees it with that length before the loop asks again; the read may
    return any status.  After the last packet the loop asks once more, is
    told that nothing is available, and is left. *)
Inductive Iterations : list Inbound -> list Event -> Prop :=
  | iterations_exit : Iterations [] [NextInbandPacketAvailable None]
  | iterations_small p ps handled rest :
      pktDataLength p <= 128 -> Dispatch handled -> Iterations ps rest ->
      Iterations (p :: ps)
        (NextInbandPacketAvailable (Some (pktDataLength p))
         :: ReadInbandCompletionPacket data128 (pktDataLength p)
                                       (readStatus p)
         :: handled ++ rest)
  | iterations_large p ps a handled rest :
      128 < pktDataLength p -> Dispatch handled -> Iterations ps rest ->
      Iterations (p :: ps)
        (NextInbandPacketAvailable (Some (pktDataLength p))
         :: IOMalloc a (pktDataLength p)
         :: ReadInbandCompletionPacket (heapBlock a) (pktDataLength p)
                                       (readStatus p)
         :: handled ++ IOFree (heapBlock a) (pktDataLength p) :: rest).

(** The sizes passed to [IOMalloc], in call order. *)
Definition mallocs (log : list Event) : list UInt32 :=
  flat_map (fun e => match e with IOMalloc _ size => [size] | _ => [] end)
           log.

(** The sizes passed to [IOFree], in call order. *)
Definition frees (log : list Event) : list UInt32 :=
  flat_map (fun e => match e with IOFree _ size => [size] | _ => [] end) log.

(** The lengths, among those of the given packets, that exceed the stack
    buffer. *)
Definition largeLengths (ps : list Inbound) : list UInt32 :=
  filter (fun len => 128 <? len) (map pktDataLength ps).

End DrainIterations.

(** ** The default keymap *)

Module Keymap.

(** The modifier and special-key numbers of IOKit's event headers that the
    keymap names.  Their values are not part of the translated files; each
    is one byte of the table. *)
Record EventConstants := mkEventConstants {
  NX_MODIFIERKEY_SHIFT : Z;
  NX_MODIFIERKEY_CONTROL : Z;
  NX_MODIFIERKEY_ALTERNATE : Z;
  NX_MODIFIERKEY_COMMAND : Z;
  NX_MODIFIERKEY_NUMERICPAD : Z;
  NX_MODIFIERKEY_HELP : Z;
  NX_MODIFIERKEY_SECONDARYFN : Z;
  NX_MODIFIERKEY_RSHIFT : Z;
  NX_MODIFIERKEY_RCONTROL : Z;
  NX_MODIFIERKEY_RALTERNATE : Z;
  NX_MODIFIERKEY_RCOMMAND : Z;
  NX_KEYTYPE_CAPS_LOCK : Z;
  NX_KEYTYPE_HELP : Z;
  NX_POWER_KEY : Z;
  NX_KEYTYPE_MUTE : Z;
  NX_KEYTYPE_SOUND_UP : Z;
  NX_KEYTYPE_SOUND_DOWN : Z;
  NX_KEYTYPE_NUM_LOCK : Z;
  NX_KEYTYPE_VIDMIRROR : Z;
  NX_KEYTYPE_PLAY : Z;
  NX_KEYTYPE_NEXT : Z;
  NX_KEYTYPE_PREVIOUS : Z;
  NX_KEYTYPE_BRIGHTNESS_UP : Z;
  NX_KEYTYPE_BRIGHTNESS_DOWN : Z;
  NX_KEYTYPE_EJECT : Z
}.

(** [appleUSAKeyMap], byte for byte as [defaultKeymapOfLength] declares
    it, one row for each line of the declaration. *)
Definition appleUSAKeyMap (nx : EventConstants) : list Z :=
  concat
    [
     [0x00; 0x00];
     [0x0b];
     [NX_MODIFIERKEY_SHIFT nx; 0x01; 0x38];
     [NX_MODIFIERKEY_CONTROL nx; 0x01; 0x3b];
     [NX_MODIFIERKEY_ALTERNATE nx; 0x01; 0x3a];
     [NX_MODIFIERKEY_COMMAND nx; 0x01; 0x37];
     [NX_MODIFIERKEY_NUMERICPAD nx; 0x15; 0x52; 0x41; 0x4c; 0x53; 0x54;
      0x55; 0x45; 0x58; 0x57; 0x56; 0x5b; 0x5c; 0x43; 0x4b; 0x51; 0x7b;
      0x7d; 0x7e; 0x7c; 0x4e; 0x59];
     [NX_MODIFIERKEY_HELP nx; 0x01; 0x72];
     [NX_MODIFIERKEY_SECONDARYFN nx; 0x01; 0x3f];
     [NX_MODIFIERKEY_RSHIFT nx; 0x01; 0x3c];
     [NX_MODIFIERKEY_RCONTROL nx; 0x01; 0x3e];
     [NX_MODIFIERKEY_RALTERNATE nx; 0x01; 0x3d];
     [NX_MODIFIERKEY_RCOMMAND nx; 0x01; 0x36];
     [0xa2];
     [0x0d; 0x00; 0x61; 0x00; 0x41; 0x00; 0x01; 0x00; 0x01; 0x00; 0xca;
      0x00; 0xc7; 0x00; 0x01; 0x00; 0x01];
     [0x0d; 0x00; 0x73; 0x00; 0x53; 0x00; 0x13; 0x00; 0x13; 0x00; 0xfb;
      0x00; 0xa7; 0x00; 0x13; 0x00; 0x13];
     [0x0d; 0x00; 0x64; 0x00; 0x44; 0x00; 0x04; 0x00; 0x04; 0x01; 0x44;
      0x01; 0xb6; 0x00; 0x04; 0x00; 0x04];
     [0x0d; 0x00; 0x66; 0x00; 0x46; 0x00; 0x06; 0x00; 0x06; 0x00; 0xa6;
      0x01; 0xac; 0x00; 0x06; 0x00; 0x06];
     [0x0d; 0x00; 0x68; 0x00; 0x48; 0x00; 0x08; 0x00; 0x08; 0x00; 0xe3;
      0x00; 0xeb; 0x00; 0x00; 0x18; 0x00];
     [0x0d; 0x00; 0x67; 0x00; 0x47; 0x00; 0x07; 0x00; 0x07; 0x00; 0xf1;
      0x00; 0xe1; 0x00; 0x07; 0x00; 0x07];
     [0x0d; 0x00; 0x7a; 0x00; 0x5a; 0x00; 0x1a; 0x00; 0x1a; 0x00; 0xcf;
      0x01; 0x57; 0x00; 0x1a; 0x00; 0x1a];
     [0x0d; 0x00; 0x78; 0x00; 0x58; 0x00; 0x18; 0x00; 0x18; 0x01; 0xb4;
      0x01; 0xce; 0x00; 0x18; 0x00; 0x18];
     [0x0d; 0x00; 0x63; 0x00; 0x43; 0x00; 0x03; 0x00; 0x03; 0x01; 0xe3;
      0x01; 0xd3; 0x00; 0x03; 0x00; 0x03];
     [0x0d; 0x00; 0x76; 0x00; 0x56; 0x00; 0x16; 0x00; 0x16; 0x01; 0xd6;
      0x01; 0xe0; 0x00; 0x16; 0x00; 0x16];
     [0x02; 0x00; 0x3c; 0x00; 0x3e];
     [0x0d; 0x00; 0x62; 0x00; 0x42; 0x00; 0x02; 0x00; 0x02; 0x01; 0xe5;
      0x01; 0xf2; 0x00; 0x02; 0x00; 0x02];
     [0x0d; 0x00; 0x71; 0x00; 0x51; 0x00; 0x11; 0x00; 0x11; 0x00; 0xfa;
      0x00; 0xea; 0x00; 0x11; 0x00; 0x11];
     [0x0d; 0x00; 0x77; 0x00; 0x57; 0x00; 0x17; 0x00; 0x17; 0x01; 0xc8;
      0x01; 0xc7; 0x00; 0x17; 0x00; 0x17];
     [0x0d; 0x00; 0x65; 0x00; 0x45; 0x00; 0x05; 0x00; 0x05; 0x00; 0xc2;
      0x00; 0xc5; 0x00; 0x05; 0x00; 0x05];
     [0x0d; 0x00; 0x72; 0x00; 0x52; 0x00; 0x12; 0x00; 0x12; 0x01; 0xe2;
      0x01; 0xd2; 0x00; 0x12; 0x00; 0x12];
     [0x0d; 0x00; 0x79; 0x00; 0x59; 0x00; 0x19; 0x00; 0x19; 0x00; 0xa5;
      0x01; 0xdb; 0x00; 0x19; 0x00; 0x19];
     [0x0d; 0x00; 0x74; 0x00; 0x54; 0x00; 0x14; 0x00; 0x14; 0x01; 0xe4;
      0x01; 0xd4; 0x00; 0x14; 0x00; 0x14];
     [0x0a; 0x00; 0x31; 0x00; 0x21; 0x01; 0xad; 0x00; 0xa1];
     [0x0e; 0x00; 0x32; 0x00; 0x40; 0x00; 0x32; 0x00; 0x00; 0x00; 0xb2;
      0x00; 0xb3; 0x00; 0x00; 0x00; 0x00];
     [0x0a; 0x00; 0x33; 0x00; 0x23; 0x00; 0xa3; 0x01; 0xba];
     [0x0a; 0x00; 0x34; 0x00; 0x24; 0x00; 0xa2; 0x00; 0xa8];
     [0x0e; 0x00; 0x36; 0x00; 0x5e; 0x00; 0x36; 0x00; 0x1e; 0x00; 0xb6;
      0x00; 0xc3; 0x00; 0x1e; 0x00; 0x1e];
     [0x0a; 0x00; 0x35; 0x00; 0x25; 0x01; 0xa5; 0x00; 0xbd];
     [0x0a; 0x00; 0x3d; 0x00; 0x2b; 0x01; 0xb9; 0x01; 0xb1];
     [0x0a; 0x00; 0x39; 0x00; 0x28; 0x00; 0xac; 0x00; 0xab];
     [0x0a; 0x00; 0x37; 0x00; 0x26; 0x01; 0xb0; 0x01; 0xab];
     [0x0e; 0x00; 0x2d; 0x00; 0x5f; 0x00; 0x1f; 0x00; 0x1f; 0x00; 0xb1;
      0x00; 0xd0; 0x00; 0x1f; 0x00; 0x1f];
     [0x0a; 0x00; 0x38; 0x00; 0x2a; 0x00; 0xb7; 0x00; 0xb4];
     [0x0a; 0x00; 0x30; 0x00; 0x29; 0x00; 0xad; 0x00; 0xbb];
     [0x0e; 0x00; 0x5d; 0x00; 0x7d; 0x00; 0x1d; 0x00; 0x1d; 0x00; 0x27;
      0x00; 0xba; 0x00; 0x1d; 0x00; 0x1d];
     [0x0d; 0x00; 0x6f; 0x00; 0x4f; 0x00; 0x0f; 0x00; 0x0f; 0x00; 0xf9;
      0x00; 0xe9; 0x00; 0x0f; 0x00; 0x0f];
     [0x0d; 0x00; 0x75; 0x00; 0x55; 0x00; 0x15; 0x00; 0x15; 0x00; 0xc8;
      0x00; 0xcd; 0x00; 0x15; 0x00; 0x15];
     [0x0e; 0x00; 0x5b; 0x00; 0x7b; 0x00; 0x1b; 0x00; 0x1b; 0x00; 0x60;
      0x00; 0xaa; 0x00; 0x1b; 0x00; 0x1b];
     [0x0d; 0x00; 0x69; 0x00; 0x49; 0x00; 0x09; 0x00; 0x09; 0x00; 0xc1;
      0x00; 0xf5; 0x00; 0x09; 0x00; 0x09];
     [0x0d; 0x00; 0x70; 0x00; 0x50; 0x00; 0x10; 0x00; 0x10; 0x01; 0x70;
      0x01; 0x50; 0x00; 0x10; 0x00; 0x10];
     [0x10; 0x00; 0x0d; 0x00; 0x03];
     [0x0d; 0x00; 0x6c; 0x00; 0x4c; 0x00; 0x0c; 0x00; 0x0c; 0x00; 0xf8;
      0x00; 0xe8; 0x00; 0x0c; 0x00; 0x0c];
     [0x0d; 0x00; 0x6a; 0x00; 0x4a; 0x00; 0x0a; 0x00; 0x0a; 0x00; 0xc6;
      0x00; 0xae; 0x00; 0x0a; 0x00; 0x0a];
     [0x0a; 0x00; 0x27; 0x00; 0x22; 0x00; 0xa9; 0x01; 0xae];
     [0x0d; 0x00; 0x6b; 0x00; 0x4b; 0x00; 0x0b; 0x00; 0x0b; 0x00; 0xce;
      0x00; 0xaf; 0x00; 0x0b; 0x00; 0x0b];
     [0x0a; 0x00; 0x3b; 0x00; 0x3a; 0x01; 0xb2; 0x01; 0xa2];
     [0x0e; 0x00; 0x5c; 0x00; 0x7c; 0x00; 0x1c; 0x00; 0x1c; 0x00; 0xe3;
      0x00; 0xeb; 0x00; 0x1c; 0x00; 0x1c];
     [0x0a; 0x00; 0x2c; 0x00; 0x3c; 0x00; 0xcb; 0x01; 0xa3];
     [0x0a; 0x00; 0x2f; 0x00; 0x3f; 0x01; 0xb8; 0x00; 0xbf];
     [0x0d; 0x00; 0x6e; 0x00; 0x4e; 0x00; 0x0e; 0x00; 0x0e; 0x00; 0xc4;
      0x01; 0xaf; 0x00; 0x0e; 0x00; 0x0e];
     [0x0d; 0x00; 0x6d; 0x00; 0x4d; 0x00; 0x0d; 0x00; 0x0d; 0x01; 0x6d;
      0x01; 0xd8; 0x00; 0x0d; 0x00; 0x0d];
     [0x0a; 0x00; 0x2e; 0x00; 0x3e; 0x00; 0xbc; 0x01; 0xb3];
     [0x02; 0x00; 0x09; 0x00; 0x19];
     [0x0c; 0x00; 0x20; 0x00; 0x00; 0x00; 0x80; 0x00; 0x00];
     [0x0a; 0x00; 0x60; 0x00; 0x7e; 0x00; 0x60; 0x01; 0xbb];
     [0x02; 0x00; 0x7f; 0x00; 0x08];
     [0xff];
     [0x02; 0x00; 0x1b; 0x00; 0x7e];
     [0xff];
     [0xff];
     [0xff];
     [0xff];
     [0xff];
     [0xff];
     [0xff];
     [0xff];
     [0xff];
     [0xff];
     [0x00; 0xfe; 0x36];
     [0x00; 0x00; 0x2e];
     [0xff];
     [0x00; 0x00; 0x2a];
     [0xff];
     [0x00; 0x00; 0x2b];
     [0xff];
     [0x00; 0x00; 0x1b];
     [0xff];
     [0xff];
     [0xff];
     [0x0e; 0x00; 0x2f; 0x00; 0x5c; 0x00; 0x2f; 0x00; 0x1c; 0x00; 0x2f;
      0x00; 0x5c; 0x00; 0x00; 0x0a; 0x00];
     [0x00; 0x00; 0x0d];
     [0xff];
     [0x00; 0x00; 0x2d];
     [0x00; 0xfe; 0x37];
     [0x00; 0xfe; 0x38];
     [0x0e; 0x00; 0x3d; 0x00; 0x7c; 0x00; 0x3d; 0x00; 0x1c; 0x00; 0x3d;
      0x00; 0x7c; 0x00; 0x00; 0x18; 0x46];
     [0x00; 0x00; 0x30];
     [0x00; 0x00; 0x31];
     [0x00; 0x00; 0x32];
     [0x00; 0x00; 0x33];
     [0x00; 0x00; 0x34];
     [0x00; 0x00; 0x35];
     [0x00; 0x00; 0x36];
     [0x00; 0x00; 0x37];
     [0x00; 0xfe; 0x39];
     [0x00; 0x00; 0x38];
     [0x00; 0x00; 0x39];
     [0xff];
     [0xff];
     [0xff];
     [0x00; 0xfe; 0x24];
     [0x00; 0xfe; 0x25];
     [0x00; 0xfe; 0x26];
     [0x00; 0xfe; 0x22];
     [0x00; 0xfe; 0x27];
     [0x00; 0xfe; 0x28];
     [0xff];
     [0x00; 0xfe; 0x2a];
     [0xff];
     [0x00; 0xfe; 0x32];
     [0x00; 0xfe; 0x35];
     [0x00; 0xfe; 0x33];
     [0xff];
     [0x00; 0xfe; 0x29];
     [0xff];
     [0x00; 0xfe; 0x2b];
     [0xff];
     [0x00; 0xfe; 0x34];
     [0xff];
     [0x00; 0xfe; 0x2e];
     [0x00; 0xfe; 0x30];
     [0x00; 0xfe; 0x2d];
     [0x00; 0xfe; 0x23];
     [0x00; 0xfe; 0x2f];
     [0x00; 0xfe; 0x21];
     [0x00; 0xfe; 0x31];
     [0x00; 0xfe; 0x20];
     [0x00; 0x01; 0xac];
     [0x00; 0x01; 0xae];
     [0x00; 0x01; 0xaf];
     [0x00; 0x01; 0xad];
     [0x00; 0x00; 0x00];
     [0x00; 0x00; 0x00];
     [0x00; 0x00; 0x00];
     [0x00; 0x00; 0x00];
     [0x00; 0x00; 0x00];
     [0x00; 0x00; 0x00];
     [0x00; 0x00; 0x00];
     [0x00; 0x00; 0x00];
     [0x00; 0x00; 0x00];
     [0x00; 0x00; 0x00];
     [0x00; 0x00; 0x00];
     [0x00; 0x00; 0x00];
     [0x00; 0x00; 0x00];
     [0x00; 0x00; 0x00];
     [0x00; 0x00; 0x00];
     [0x00; 0x00; 0x00];
     [0x00; 0x00; 0x00];
     [0x00; 0x00; 0x00];
     [0x00; 0x00; 0x00];
     [0x00; 0x00; 0x00];
     [0x00; 0x00; 0x00];
     [0x00; 0x00; 0x00];
     [0x00; 0x00; 0x00];
     [0x00; 0x00; 0x00];
     [0x00; 0x00; 0x00];
     [0x00; 0x00; 0x00];
     [0x00; 0x00; 0x00];
     [0x00; 0x00; 0x00];
     [0x00; 0x00; 0x00];
     [0x00; 0x00; 0x00];
     [0x00; 0x00; 0x00];
     [0x00; 0x00; 0x00];
     [0x00; 0x00; 0x00];
     [0x00; 0x00; 0x00];
     [0x00; 0x00; 0x00];
     [0x11];
     [0x02; 0xff; 0x04; 0x00; 0x31];
     [0x02; 0xff; 0x04; 0x00; 0x32];
     [0x02; 0xff; 0x04; 0x00; 0x33];
     [0x02; 0xff; 0x04; 0x00; 0x34];
     [0x02; 0xff; 0x04; 0x00; 0x35];
     [0x02; 0xff; 0x04; 0x00; 0x36];
     [0x02; 0xff; 0x04; 0x00; 0x37];
     [0x02; 0xff; 0x04; 0x00; 0x38];
     [0x02; 0xff; 0x04; 0x00; 0x39];
     [0x02; 0xff; 0x04; 0x00; 0x30];
     [0x02; 0xff; 0x04; 0x00; 0x2d];
     [0x02; 0xff; 0x04; 0x00; 0x3d];
     [0x02; 0xff; 0x04; 0x00; 0x70];
     [0x02; 0xff; 0x04; 0x00; 0x5d];
     [0x02; 0xff; 0x04; 0x00; 0x5b];
     [0x03; 0xff; 0x04; 0xff; 0x01; 0x00; 0x5b];
     [0x03; 0xff; 0x04; 0xff; 0x01; 0x00; 0x5d];
     [0x0e];
     [NX_KEYTYPE_CAPS_LOCK nx; 0x39];
     [NX_KEYTYPE_HELP nx; 0x72];
     [NX_POWER_KEY nx; 0x7f];
     [NX_KEYTYPE_MUTE nx; 0x4a];
     [NX_KEYTYPE_SOUND_UP nx; 0x48];
     [NX_KEYTYPE_SOUND_DOWN nx; 0x49];
     [NX_KEYTYPE_NUM_LOCK nx; 0x47];
     [NX_KEYTYPE_VIDMIRROR nx; 0x70];
     [NX_KEYTYPE_PLAY nx; 0x34];
     [NX_KEYTYPE_NEXT nx; 0x42];
     [NX_KEYTYPE_PREVIOUS nx; 0x4d];
     [NX_KEYTYPE_BRIGHTNESS_UP nx; 0x90];
     [NX_KEYTYPE_BRIGHTNESS_DOWN nx; 0x91];
     [NX_KEYTYPE_EJECT nx; 0x92]
    ].

(** [defaultKeymapOfLength(length)]: the table, and its size as stored
    through [length]. *)
Definition defaultKeymapOfLength (nx : EventConstants) : list Z * UInt32 :=
  (appleUSAKeyMap nx, Z.of_nat (length (appleUSAKeyMap nx))).

(** The layout of the table, as its comments give it: two zero bytes ("use
    byte unit"); the number of modifier keys and, for each, "( modifier, num
    of keys, ADB keycodes... )"; the number of key definitions and, for
    each, "( modifier mask, generated character{char_set,char_code}... )",
    a mask with [n] bits set being followed by [2^n] characters and the
    mask 0xff by none; the number of sequence definitions and, for each,
    "( num of keys, generated sequence characters(char_set,char_code)...
    )"; the number of special keys and, for each, "( NX_KEYTYPE, Virtual
    ADB code )". *)
Record Layout := mkLayout {
  modifiers : list (Z * list Z);
  keys : list (option (Z * list (Z * Z)));
  sequences : list (list (Z * Z));
  specials : list (Z * Z)
}.

(** The first [n] bytes and what follows them, if there are [n] bytes. *)
Fixpoint take (n : nat) (l : list Z) : option (list Z * list Z) :=
  match n, l with
  | O, _ => Some ([], l)
  | S n', x :: l' =>
      match take n' l' with
      | Some (xs, r) => Some (x :: xs, r)
      | None => None
      end
  | S _, [] => None
  end.

Fixpoint pairs (l : list Z) : list (Z * Z) :=
  match l with
  | a :: b :: l' => (a, b) :: pairs l'
  | _ => []
  end.

Fixpoint modifierDefs (count : nat) (l : list Z)
  : option (list (Z * list Z) * list Z) :=
  match count with
  | O => Some ([], l)
  | S count' =>
      match l with
      | modifier :: n :: l' =>
          match take (Z.to_nat n) l' with
          | Some (codes, l'') =>
              match modifierDefs count' l'' with
              | Some (defs, r) => Some ((modifier, codes) :: defs, r)
              | None => None
              end
          | None => None
          end
      | _ => None
      end
  end.

(** The number of modifier bits set in a mask byte. *)
Definition modifierBits (mask : Z) : nat :=
  length (filter (Z.testbit mask) [0; 1; 2; 3; 4; 5; 6; 7]).

Fixpoint keyDefs (count : nat) (l : list Z)
  : option (list (option (Z * list (Z * Z))) * list Z) :=
  match count with
  | O => Some ([], l)
  | S count' =>
      match l with
      | mask :: l' =>
          if mask =? 0xff then
            match keyDefs count' l' with
            | Some (defs, r) => Some (None :: defs, r)
            | None => None
            end
          else
            match take (2 * 2 ^ modifierBits mask) l' with
            | Some (chars, l'') =>
                match keyDefs count' l'' with
                | Some (defs, r) => Some (Some (mask, pairs chars) :: defs, r)
                | None => None
                end
            | None => None
            end
      | [] => None
      end
  end.

Fixpoint sequenceDefs (count : nat) (l : list Z)
  : option (list (list (Z * Z)) * list Z) :=
  match count with
  | O => Some ([], l)
  | S count' =>
      match l with
      | n :: l' =>
          match take (2 * Z.to_nat n) l' with
          | Some (chars, l'') =>
              match sequenceDefs count' l'' with
              | Some (defs, r) => Some (pairs chars :: defs, r)
              | None => None
              end
          | None => None
          end
      | [] => None
      end
  end.

(** Read a table; the result is the layout and the bytes left over. *)
Definition parse (l : list Z) : option (Layout * list Z) :=
  match l with
  | 0 :: 0 :: nMod :: l1 =>
      match modifierDefs (Z.to_nat nMod) l1 with
      | Some (mods, nKey :: l2) =>
          match keyDefs (Z.to_nat nKey) l2 with
          | Some (ks, nSeq :: l3) =>
              match sequenceDefs (Z.to_nat nSeq) l3 with
              | Some (seqs, nSpecial :: l4) =>
                  match take (2 * Z.to_nat nSpecial) l4 with
                  | Some (sp, r) => Some (mkLayout mods ks seqs (pairs sp), r)
                  | None => None
                  end
              | _ => None
              end
          | _ => None
          end
      | _ => None
      end
  | _ => None
  end.

(** The ADB key codes that the modifier and special-key sections name. *)
Definition namedKeyCodes (km : Layout) : list Z :=
  flat_map snd (modifiers km) ++ map snd (specials km).

End Keymap.

(** * Properties *)

(** ** The nub: openChannel, closeChannel, detach *)

Section NubFacts.

Import Run HyperVVMBusDevice Samples Spec.

Example attached_value : attached = mkNub false 5 0 0 None.
Proof. reflexivity. Qed.

Example opened_with_child_value :
  opened_with_child = mkNub false 5 4096 4096 (Some 7%nat).
Proof. reflexivity. Qed.

Example kIOReturnError_value : IOKit.kIOReturnError = 0xE00002BC.
Proof. reflexivity. Qed.

Lemma kIOReturnError_converts_to_true :
  IOKit.bool_of_integer IOKit.kIOReturnError = true.
Proof. reflexivity. Qed.

(** The guard at the head of [openChannel]. *)
Lemma openChannel_guard txSize rxSize owner intAction env d :
  channelIsOpen d = true ->
  openChannel txSize rxSize owner intAction env d = (true, d, []).
Proof.
  intros Hopen. unfold openChannel, bind, get. simpl. rewrite Hopen.
  reflexivity.
Qed.

(** No path through [openChannel] writes [channelIsOpen]. *)
Lemma openChannel_keeps_channelIsOpen txSize rxSize owner intAction env d :
  channelIsOpen (state (openChannel txSize rxSize owner intAction env d))
  = channelIsOpen d.
Proof.
  destruct d as [o i t r c], env as [si cs iv ov].
  destruct o, si, owner, intAction, cs; reflexivity.
Qed.

(** Neither does [closeChannel]. *)
Lemma closeChannel_keeps_channelIsOpen d :
  channelIsOpen (state (closeChannel d)) = channelIsOpen d.
Proof.
  destruct d as [o i t r c]. destruct c; reflexivity.
Qed.

(** C9: whenever [setupInterrupt] succeeds, [openChannel] reports success.
    The branch in which the child interrupt source cannot be created returns
    [kIOReturnError], which is not zero and so reads as true through the
    [bool] return type, and makes no controller call; the results of
    [initVMBusChannel] and [openVMBusChannel] do not reach the return
    value. *)
Theorem openChannel_succeeds_once_interrupt_is_set_up :
  forall txSize rxSize owner intAction env d,
    setupInterrupt_ok env = true ->
    result (openChannel txSize rxSize owner intAction env d) = true
    /\ (channelIsOpen d = false -> owner <> None -> intAction <> None ->
        childSource_new env = None ->
        openChannel txSize rxSize owner intAction env d
        = (IOKit.bool_of_integer IOKit.kIOReturnError,
           set_childInterruptSource None
             (set_rxBufferSize rxSize (set_txBufferSize txSize d)),
           [SetupInterrupt true; InterruptEventSource ChannelOwner None])
        /\ IOKit.kIOReturnError <> 0)
    /\ (forall init open,
          result (openChannel txSize rxSize owner intAction
                    (with_provider_results env init open) d) = true).
Proof.
  intros txSize rxSize owner intAction env d Hsetup.
  destruct d as [o i t r c], env as [si cs iv ov]. simpl in Hsetup. subst si.
  split; [|split].
  - destruct o, owner, intAction, cs; reflexivity.
  - simpl. intros Ho Hown Hact Hcs. subst o cs.
    destruct owner; [|congruence]. destruct intAction; [|congruence].
    split; [reflexivity | discriminate].
  - intros init open. destruct o, owner, intAction, cs; reflexivity.
Qed.

Lemma openChannel_succeeds_once_interrupt_is_set_up_witness :
  setupInterrupt_ok (mkOpenAnswers true None false false) = true
  /\ result (openChannel 4096 4096 (Some 1%nat) (Some 2%nat)
               (mkOpenAnswers true None false false) attached) = true.
Proof.
  split; [reflexivity|].
  apply (openChannel_succeeds_once_interrupt_is_set_up
           4096 4096 (Some 1%nat) (Some 2%nat)
           (mkOpenAnswers true None false false) attached).
  reflexivity.
Defined.

(** C1: on a nub that was attached and then opened successfully, a second
    [openChannel] is not a no-op.  The first call returns true and leaves
    [channelIsOpen] false, so the second call passes the guard, overwrites
    the ring sizes and runs interrupt setup, buffer initialisation and the
    open request again. *)
Theorem openChannel_twice_repeats_the_setup :
  let first := openChannel 4096 4096 None None all_ok attached in
  let second := openChannel 8192 8192 None None all_ok (state first) in
  result first = true
  /\ channelIsOpen (state first) = false
  /\ result second = true
  /\ state second = mkNub false 5 8192 8192 None
  /\ events second
     = [SetupInterrupt true; InitVMBusChannel 5 8192 8192 true;
        OpenVMBusChannel 5 true].
Proof. cbv zeta. repeat split. Qed.

(** C2, as stated, fails: the host rejects the open request (a step of the
    open fails) and [openChannel] still returns true. *)
Lemma openChannel_hides_host_rejection :
  some_step_fails host_rejects_open = true
  /\ result (openChannel 4096 4096 None None host_rejects_open attached)
     = true.
Proof. split; reflexivity. Qed.

(** C2, amended: when [setupInterrupt] fails, [openChannel] returns false,
    the only call it has made is the failed [setupInterrupt] (nothing else
    was acquired, initialised or sent), and the channel is still not open. *)
Theorem openChannel_reports_interrupt_setup_failure :
  forall txSize rxSize owner intAction env d,
    channelIsOpen d = false ->
    setupInterrupt_ok env = false ->
    openChannel txSize rxSize owner intAction env d
    = (false, set_rxBufferSize rxSize (set_txBufferSize txSize d),
       [SetupInterrupt false])
    /\ channelIsOpen
         (state (openChannel txSize rxSize owner intAction env d)) = false
    /\ childInterruptSource
         (state (openChannel txSize rxSize owner intAction env d))
       = childInterruptSource d.
Proof.
  intros txSize rxSize owner intAction env d Hclosed Hsetup.
  destruct d as [o i t r c], env as [si cs iv ov]. simpl in *. subst o si.
  repeat split.
Qed.

Lemma openChannel_reports_interrupt_setup_failure_witness :
  channelIsOpen attached = false
  /\ setupInterrupt_ok interrupt_fails = false
  /\ openChannel 4096 4096 None None interrupt_fails attached
     = (false, mkNub false 5 4096 4096 None, [SetupInterrupt false]).
Proof.
  split; [reflexivity|]. split; [reflexivity|].
  apply (openChannel_reports_interrupt_setup_failure
           4096 4096 None None interrupt_fails attached); reflexivity.
Defined.




(** C3: closing a channel that a client opened with its own interrupt action
    disables and removes the child interrupt source and calls
    [teardownInterrupt], and that is all: no close message is sent, nothing
    is torn down or released in the controller, and [channelIsOpen] is not
    written.  [detach] on the same nub does not even reach [closeChannel],
    because [channelIsOpen] is still false. *)
Theorem closeChannel_only_tears_down_interrupts :
  closeChannel opened_with_child
  = (tt, mkNub false 5 4096 4096 None,
     [Disable 7%nat; RemoveEventSource NubWorkLoop 7%nat; TeardownInterrupt])
  /\ detach opened_with_child = (tt, opened_with_child, [SuperDetach]).
Proof. split; reflexivity. Qed.

(** What [closeChannel] does on any nub: the child source, when there is
    one, is disabled and removed; then [teardownInterrupt]; nothing else. *)
Lemma closeChannel_events d :
  events (closeChannel d)
  = match childInterruptSource d with
    | Some s => [Disable s; RemoveEventSource NubWorkLoop s; TeardownInterrupt]
    | None => [TeardownInterrupt]
    end.
Proof. destruct d as [o i t r c]. destruct c; reflexivity. Qed.

End NubFacts.

(** ** The channel record *)

Section ChannelFacts.

Import VMBusDriver ChannelSamples.

(** C4, as stated, fails: a channel record in the open state does not hold
    two different GPADL handles. *)
Lemma open_channel_has_no_second_handle :
  status open_channel = kVMBusChannelStatusOpen
  /\ ~ holds_two_distinct_handles open_channel.
Proof.
  split; [reflexivity|].
  intros (h1 & h2 & H1 & H2 & Hne). simpl in H1, H2.
  destruct H1 as [H1|[]], H2 as [H2|[]]. congruence.
Qed.

(** C4, amended: a channel record stores exactly one GPADL handle, its
    [gpadlHandle] member, whatever its status; any two handles read from the
    record are the same.  Its two DMA buffers are the data buffer and the
    event buffer. *)
Theorem channel_holds_one_gpadl_handle :
  forall c : VMBusChannel,
    length (gpadlHandles c) = 1%nat
    /\ (forall h1 h2,
          In h1 (gpadlHandles c) -> In h2 (gpadlHandles c) -> h1 = h2)
    /\ (forall h, In h (gpadlHandles c) <-> h = gpadlHandle c)
    /\ dmaBuffers c = [dataBuffer c; eventBuffer c].
Proof.
  intros c. split; [reflexivity|]. split; [|split; [|reflexivity]].
  - intros h1 h2 [H1|[]] [H2|[]]. congruence.
  - intros h. simpl. split; [intros [H|[]]; congruence | intros ->; now left].
Qed.

Lemma channel_holds_one_gpadl_handle_witness :
  In 0xE1E10 (gpadlHandles open_channel)
  /\ 0xE1E10 = gpadlHandle open_channel.
Proof.
  split; [left; reflexivity|].
  apply (channel_holds_one_gpadl_handle open_channel). left. reflexivity.
Defined.

End ChannelFacts.

(** ** The GPADL registry *)

Section RegistryFacts.

Import VMBusDriver GpadlRegistry.

Example issued_example :
  issued [Register; Register; Teardown 0xE1E10; Register; Teardown 0xE1E11;
          Teardown 0xE1E12; Register] init
  = [0xE1E10; 0xE1E11; 0xE1E12; 0xE1E13].
Proof. reflexivity. Qed.











End RegistryFacts.

(** ** The keyboard driver *)

Section KeyboardFacts.

Import Run HyperVKeyboard DrainLog KeyboardSamples.

Example start_open_fails_run :
  start ringSize version open_fails fresh_driver
  = (Some false,
     mkDriver true None
       (HyperVVMBusDevice.mkNub false 5 0x8000 0x8000 None),
     [SuperStart true; RetainDevice;
      InterruptEventSource KeyboardDriver (Some 9%nat);
      AddEventSource KeyboardWorkLoop 9%nat; Enable 9%nat;
      SetupInterrupt false;
      Disable 9%nat; RemoveEventSource KeyboardWorkLoop 9%nat;
      Release 9%nat; SuperStop]).
Proof. reflexivity. Qed.

Example handleInterrupt_run :
  handleInterrupt exStart table
    [Some small_key; Some large_failed; Some large_key; None; Some small_key]
    empty_heap
  = ([Some small_key], mkHeap [] 2%nat,
     [NextInbandPacketAvailable (Some 24);
      ReadInbandCompletionPacket data128 24 0;
      ClockGetUptime 1000; DispatchKeyboardEvent 0x1F true 1000;
      NextInbandPacketAvailable (Some 200);
      IOMalloc 0%nat 200;
      ReadInbandCompletionPacket (heapBlock 0%nat) 200 0xE00002BC;
      IOFree (heapBlock 0%nat) 200;
      NextInbandPacketAvailable (Some 4096);
      IOMalloc 1%nat 4096;
      ReadInbandCompletionPacket (heapBlock 1%nat) 4096 0;
      ClockGetUptime 3000; DispatchKeyboardEvent 0x9F false 3000;
      IOFree (heapBlock 1%nat) 4096;
      NextInbandPacketAvailable None]).
Proof. reflexivity. Qed.

(** The whole log of a [start] during which [openChannel] returns false. *)
Lemma start_log_when_open_fails kRingSize kVersion env k s :
  superStart_ok env = true ->
  providerIsNub env = true ->
  interruptSource_new env = Some s ->
  result (HyperVVMBusDevice.openChannel kRingSize kRingSize None None
            (openAnswers env) (provider k)) = false ->
  result (start kRingSize kVersion env k) = Some false
  /\ interruptSource (state (start kRingSize kVersion env k)) = None
  /\ events (start kRingSize kVersion env k)
     = [SuperStart true; RetainDevice;
        InterruptEventSource KeyboardDriver (Some s);
        AddEventSource KeyboardWorkLoop s; Enable s]
       ++ events (HyperVVMBusDevice.openChannel kRingSize kRingSize
                    None None (openAnswers env) (provider k))
       ++ [Disable s; RemoveEventSource KeyboardWorkLoop s; Release s;
           SuperStop].
Proof.
  intros Hstart Hnub Hsrc Hopen.
  unfold start. rewrite Hstart, Hnub, Hsrc.
  unfold bind, call, modify, zoom, ret, result, state, events in *.
  cbn [negb fst snd set_hvDevice set_interruptSource provider app].
  destruct (HyperVVMBusDevice.openChannel kRingSize kRingSize None None
              (openAnswers env) (provider k)) as [[opened d'] ev].
  cbn in Hopen. subst opened. cbn. rewrite ?app_nil_r. repeat split.
Qed.

(** [openChannel] returns false only when it got past its guard and
    [setupInterrupt] failed. *)
Lemma openChannel_false_only_by_setupInterrupt
      txSize rxSize owner intAction env d :
  result (HyperVVMBusDevice.openChannel txSize rxSize owner intAction env d)
  = false ->
  HyperVVMBusDevice.channelIsOpen d = false
  /\ HyperVVMBusDevice.setupInterrupt_ok env = false.
Proof.
  destruct d as [o i t r c], env as [si cs iv ov].
  destruct o, si, owner, intAction, cs; cbn; intros H;
    first [discriminate H | split; reflexivity].
Qed.

(** C8, as stated, fails: the host rejects the channel open during [start]
    (a step of the open fails), and [start] sends the protocol request and
    returns true; the interrupt event source stays added and enabled, and
    nothing is unwound. *)
Lemma start_succeeds_although_the_host_rejects_the_open :
  Spec.some_step_fails Samples.host_rejects_open = true
  /\ start ringSize version
           (mkStartAnswers true true (Some 9%nat) Samples.host_rejects_open)
           fresh_driver
     = (Some true,
        mkDriver true (Some 9%nat)
          (HyperVVMBusDevice.mkNub false 5 0x8000 0x8000 None),
        [SuperStart true; RetainDevice;
         InterruptEventSource KeyboardDriver (Some 9%nat);
         AddEventSource KeyboardWorkLoop 9%nat; Enable 9%nat;
         SetupInterrupt true; InitVMBusChannel 5 0x8000 0x8000 true;
         OpenVMBusChannel 5 false;
         WriteInbandProtocolRequest 0x10000 true]).
Proof. split; reflexivity. Qed.

(** C8, amended: when [openChannel] returns false to [start], which it does
    only when the nub's [setupInterrupt] failed, [start] ends by disabling
    the interrupt event source that it had added to the work loop and
    enabled, removing it from the work loop, releasing it and stopping the
    superclass, in this order; the member is NULL afterwards and [start]
    returns false. *)
Theorem start_unwinds_when_open_fails :
  forall kRingSize kVersion env k s,
    superStart_ok env = true ->
    providerIsNub env = true ->
    interruptSource_new env = Some s ->
    result (HyperVVMBusDevice.openChannel kRingSize kRingSize None None
              (openAnswers env) (provider k)) = false ->
    HyperVVMBusDevice.setupInterrupt_ok (openAnswers env) = false
    /\ result (start kRingSize kVersion env k) = Some false
    /\ interruptSource (state (start kRingSize kVersion env k)) = None
    /\ exists before,
         events (start kRingSize kVersion env k)
         = before
           ++ [Disable s; RemoveEventSource KeyboardWorkLoop s; Release s;
               SuperStop]
         /\ In (AddEventSource KeyboardWorkLoop s) before
         /\ In (Enable s) before.
Proof.
  intros kRingSize kVersion env k s Hstart Hnub Hsrc Hopen.
  destruct (start_log_when_open_fails kRingSize kVersion env k s
              Hstart Hnub Hsrc Hopen) as (Hres & Hmember & Hlog).
  split; [exact (proj2 (openChannel_false_only_by_setupInterrupt
                          _ _ _ _ _ _ Hopen))|].
  split; [exact Hres|]. split; [exact Hmember|].
  exists ([SuperStart true; RetainDevice;
           InterruptEventSource KeyboardDriver (Some s);
           AddEventSource KeyboardWorkLoop s; Enable s]
          ++ events (HyperVVMBusDevice.openChannel kRingSize kRingSize
                       None None (openAnswers env) (provider k))).
  split; [rewrite Hlog, <- app_assoc; reflexivity|].
  split; apply in_or_app; left; cbn; tauto.
Qed.

Lemma start_unwinds_when_open_fails_witness :
  superStart_ok open_fails = true
  /\ providerIsNub open_fails = true
  /\ interruptSource_new open_fails = Some 9%nat
  /\ result (HyperVVMBusDevice.openChannel ringSize ringSize None None
               (openAnswers open_fails) (provider fresh_driver)) = false
  /\ result (start ringSize version open_fails fresh_driver) = Some false.
Proof.
  split; [reflexivity|]. split; [reflexivity|]. split; [reflexivity|].
  split; [reflexivity|].
  apply (start_unwinds_when_open_fails
           ringSize version open_fails fresh_driver 9%nat); reflexivity.
Defined.

(** [start] keeps the reference it took on the nub when the open fails:
    [RetainDevice] is not matched by a release on that path. *)
Lemma start_open_failure_keeps_device_reference :
  In RetainDevice (events (start ringSize version open_fails fresh_driver))
  /\ hvDevice (state (start ringSize version open_fails fresh_driver)) = true.
Proof. split; [cbn; tauto | reflexivity]. Qed.

Section Drain.

Variable kADBConverterExStart : Z.
Variable PS2ToADBMapStock : Z -> UInt8.

Local Abbreviation drainPacket :=
  (HyperVKeyboard.drainPacket kADBConverterExStart PS2ToADBMapStock).
Local Abbreviation handleInterrupt :=
  (HyperVKeyboard.handleInterrupt kADBConverterExStart PS2ToADBMapStock).

(** One pass through the loop body, case by case. *)
Lemma drainPacket_run p h :
  exists handled,
    Dispatch handled
    /\ ((pktDataLength p <= 128
         /\ drainPacket p h
            = (tt, h,
               ReadInbandCompletionPacket data128 (pktDataLength p)
                                          (readStatus p) :: handled))
        \/ (128 < pktDataLength p
            /\ drainPacket p h
               = (tt, mkHeap (live h) (S (fresh h)),
                  IOMalloc (fresh h) (pktDataLength p)
                  :: ReadInbandCompletionPacket (heapBlock (fresh h))
                       (pktDataLength p) (readStatus p)
                  :: handled
                     ++ [IOFree (heapBlock (fresh h)) (pktDataLength p)]))).
Proof.
  destruct p as [len st msg up], h as [lv fr].
  unfold HyperVKeyboard.drainPacket, sizeof_data128,
    bind, ret, call, ioMalloc, ioFree.
  cbn [pktDataLength readStatus message uptime live fresh].
  exists (if st =? IOKit.kIOReturnSuccess then
            match msg with
            | KeyEvent keystroke =>
                [ClockGetUptime up;
                 DispatchKeyboardEvent
                   (getKeyCode kADBConverterExStart PS2ToADBMapStock keystroke)
                   (negb (isBreak keystroke)) up]
            | _ => []
            end
          else []).
  destruct (Z.leb_spec len 128) as [Hle|Hgt];
    destruct (Z.ltb_spec 128 len) as [Hlt|Hge]; try lia;
    destruct (st =? IOKit.kIOReturnSuccess); try destruct msg;
    cbn [release app fst snd live fresh]; rewrite ?Nat.eqb_refl;
    (split; [constructor
            |first [left; split; [lia|reflexivity]
                   |right; split; [lia|reflexivity]]]).
Qed.

Lemma handleInterrupt_step p rest h :
  handleInterrupt (Some p :: rest) h
  = (result (handleInterrupt rest (state (drainPacket p h))),
     state (handleInterrupt rest (state (drainPacket p h))),
     NextInbandPacketAvailable (Some (pktDataLength p))
     :: events (drainPacket p h)
        ++ events (handleInterrupt rest (state (drainPacket p h)))).
Proof.
  cbn [HyperVKeyboard.handleInterrupt].
  unfold bind, call, result, state, events.
  destruct (HyperVKeyboard.drainPacket _ _ p h) as [[u h1] e1].
  cbn [fst snd].
  destruct (HyperVKeyboard.handleInterrupt _ _ rest h1) as [[r h2] e2].
  reflexivity.
Qed.

Lemma Dispatch_no_malloc handled a n :
  Dispatch handled -> ~ In (IOMalloc a n) handled.
Proof.
  intros Hd Hin. destruct Hd; cbn in Hin;
    repeat (destruct Hin as [Hin|Hin]; try discriminate Hin); exact Hin.
Qed.

Lemma Dispatch_polls handled : Dispatch handled -> polls handled = 0%nat.
Proof. intros Hd. destruct Hd; reflexivity. Qed.

Lemma polls_app l1 l2 : polls (l1 ++ l2) = (polls l1 + polls l2)%nat.
Proof.
  induction l1 as [|e l1 IH]; [reflexivity|].
  destruct e; cbn; rewrite IH; reflexivity.
Qed.

Lemma drainPacket_live p h : live (state (drainPacket p h)) = live h.
Proof.
  destruct (drainPacket_run p h) as (handled & _ & [[_ ->]|[_ ->]]);
    reflexivity.
Qed.


Lemma drainPacket_polls p h : polls (events (drainPacket p h)) = 0%nat.
Proof.
  destruct (drainPacket_run p h) as (handled & Hd & [[_ ->]|[_ ->]]);
    cbn; rewrite ?polls_app, (Dispatch_polls _ Hd); reflexivity.
Qed.


Lemma handleInterrupt_live script :
  forall h, live (state (handleInterrupt script h)) = live h.
Proof.
  induction script as [|[p|] rest IH]; intros h; [reflexivity| |reflexivity].
  rewrite handleInterrupt_step. cbn [state fst snd].
  fold (state (handleInterrupt rest (state (drainPacket p h)))).
  rewrite IH. apply drainPacket_live.
Qed.

Lemma handleInterrupt_leaves_at_first_refusal ps :
  forall rest h,
    result (handleInterrupt (map Some ps ++ None :: rest) h) = rest
    /\ polls (events (handleInterrupt (map Some ps ++ None :: rest) h))
       = S (length ps).
Proof.
  induction ps as [|p ps IH]; intros rest h; [split; reflexivity|].
  cbn [map app length]. rewrite handleInterrupt_step.
  destruct (IH rest (state (drainPacket p h))) as [Hres Hpolls].
  split; [exact Hres|].
  cbn [events snd polls]. rewrite polls_app, drainPacket_polls.
  cbn [Nat.add]. f_equal. exact Hpolls.
Qed.

Lemma handleInterrupt_leaves_when_script_ends ps :
  forall h,
    result (handleInterrupt (map Some ps) h) = []
    /\ polls (events (handleInterrupt (map Some ps) h)) = S (length ps).
Proof.
  induction ps as [|p ps IH]; intros h; [split; reflexivity|].
  cbn [map length]. rewrite handleInterrupt_step.
  destruct (IH (state (drainPacket p h))) as [Hres Hpolls].
  split; [exact Hres|].
  cbn [events snd polls]. rewrite polls_app, drainPacket_polls.
  cbn [Nat.add]. f_equal. exact Hpolls.
Qed.


(** One pass through the loop body: a block of [pktDataLength] bytes is
    allocated exactly when [pktDataLength] exceeds 128 and is freed in the
    same pass, so the live blocks at the end of the pass are those at its
    start, whatever the read returned.  The handler as a whole leaves the
    live blocks as it found them, and asks for a packet once per packet and
    once more. *)
Lemma drainPacket_frees_what_it_allocates :
  forall h,
    (forall p,
        ((exists a,
             In (IOMalloc a (pktDataLength p)) (events (drainPacket p h)))
         <-> 128 < pktDataLength p)
        /\ (forall a n,
              In (IOMalloc a n) (events (drainPacket p h)) ->
              n = pktDataLength p
              /\ In (IOFree (heapBlock a) n) (events (drainPacket p h)))
        /\ live (state (drainPacket p h)) = live h)
    /\ (forall script, live (state (handleInterrupt script h)) = live h)
    /\ (forall ps rest,
          result (handleInterrupt (map Some ps ++ None :: rest) h) = rest
          /\ polls (events (handleInterrupt (map Some ps ++ None :: rest) h))
             = S (length ps))
    /\ (forall ps,
          result (handleInterrupt (map Some ps) h) = []
          /\ polls (events (handleInterrupt (map Some ps) h))
             = S (length ps)).
Proof.
  intros h. split; [|split; [|split]].
  - intros p.
    destruct (drainPacket_run p h) as (handled & Hd & [[Hle Heq]|[Hgt Heq]]);
      rewrite Heq; cbn [events state snd fst live].
    + split; [split|split; [|reflexivity]].
      * intros [a [Hin|Hin]]; [discriminate Hin|].
        now apply Dispatch_no_malloc in Hin.
      * lia.
      * intros a n [Hin|Hin]; [discriminate Hin|].
        now apply Dispatch_no_malloc in Hin.
    + split; [split|split; [|reflexivity]].
      * intros _. exact Hgt.
      * intros _. exists (fresh h). left. reflexivity.
      * intros a n [Hin|[Hin|Hin]]; [|discriminate Hin|].
        -- inversion Hin; subst. split; [reflexivity|].
           right. right. apply in_or_app. right. left. reflexivity.
        -- apply in_app_or in Hin. destruct Hin as [Hin|[Hin|[]]];
             [now apply Dispatch_no_malloc in Hin | discriminate Hin].
  - intros script. apply handleInterrupt_live.
  - intros ps rest. apply handleInterrupt_leaves_at_first_refusal.
  - intros ps. apply handleInterrupt_leaves_when_script_ends.
Qed.

End Drain.


End KeyboardFacts.

(** ** Attaching a nub and naming it *)

Section AttachFacts.

Import Run HyperVVMBusDevice Location.

Lemma unsigned32BitValue_mod v : unsigned32BitValue v = v mod 2 ^ 32.
Proof.
  unfold unsigned32BitValue. change 0xFFFFFFFF with (Z.ones 32).
  apply Z.land_ones. lia.
Qed.

Lemma unsigned32BitValue_range v : 0 <= unsigned32BitValue v < 2 ^ 32.
Proof. rewrite unsigned32BitValue_mod. apply Z.mod_pos_bound. lia. Qed.

(** X1: [attach] returns true exactly when [super::attach] succeeded, the
    channel property is a number and the provider is a VMBus controller.
    It then has stored that number reduced modulo 2^32, a value below 2^32,
    as [channelId], has reset [channelIsOpen], and has named the nub after
    that channel as the last thing it did. *)
Theorem attach_succeeds_iff_channel_and_controller_present :
  forall env d,
    (result (attach env d) = true <->
     superAttach_ok env = true
     /\ (exists n, channelNumber env = Some n)
     /\ providerIsController env = true)
    /\ (forall n,
          superAttach_ok env = true -> channelNumber env = Some n ->
          providerIsController env = true ->
          state (attach env d)
          = set_channelId (n mod 2 ^ 32) (set_channelIsOpen false d)
          /\ 0 <= channelId (state (attach env d)) < 2 ^ 32
          /\ exists before,
               events (attach env d)
               = before ++ [SetLocation (n mod 2 ^ 32)]).
Proof.
  intros [sa cn pc] d. split.
  - destruct sa, cn as [n|], pc; cbn; split;
      try discriminate; try (intros (H1 & (m & H2) & H3); discriminate);
      try reflexivity.
    intros _. repeat split. now exists n.
  - cbn. intros n -> -> ->. cbn.
    rewrite unsigned32BitValue_mod. repeat split.
    + apply Z.mod_pos_bound. lia.
    + apply Z.mod_pos_bound. lia.
    + exists [SuperAttach true; GetProperty (Some n); GetProvider true].
      reflexivity.
Qed.

Lemma attach_succeeds_iff_channel_and_controller_present_witness :
  superAttach_ok (mkAttachAnswers true (Some (2 ^ 32 + 5)) true) = true
  /\ channelNumber (mkAttachAnswers true (Some (2 ^ 32 + 5)) true)
     = Some (2 ^ 32 + 5)
  /\ providerIsController (mkAttachAnswers true (Some (2 ^ 32 + 5)) true)
     = true
  /\ state (attach (mkAttachAnswers true (Some (2 ^ 32 + 5)) true) zeroed)
     = set_channelId ((2 ^ 32 + 5) mod 2 ^ 32)
                     (set_channelIsOpen false zeroed).
Proof.
  split; [reflexivity|]. split; [reflexivity|]. split; [reflexivity|].
  apply (proj2 (attach_succeeds_iff_channel_and_controller_present
                  (mkAttachAnswers true (Some (2 ^ 32 + 5)) true) zeroed)
               (2 ^ 32 + 5)); reflexivity.
Defined.

(** An [attach] that returns false has not named the nub and has left
    [channelId], the ring sizes and the child interrupt source as they
    were. *)
Lemma failed_attach_keeps_the_channel_number env d :
  result (attach env d) = false ->
  channelId (state (attach env d)) = channelId d
  /\ txBufferSize (state (attach env d)) = txBufferSize d
  /\ rxBufferSize (state (attach env d)) = rxBufferSize d
  /\ childInterruptSource (state (attach env d)) = childInterruptSource d
  /\ (forall channel, ~ In (SetLocation channel) (events (attach env d))).
Proof.
  destruct env as [sa cn pc]. destruct sa, cn as [n|], pc; cbn;
    intros H; try discriminate H; repeat split;
    intros channel Hin;
    repeat (destruct Hin as [Hin|Hin]; [discriminate Hin|]); exact Hin.
Qed.

Lemma hexDigitsOf_length width :
  forall n, (length (hexDigitsOf width n) <= width)%nat.
Proof.
  induction width as [|w IH]; intros n; cbn [hexDigitsOf length]; [lia|].
  destruct (n / 16 =? 0); cbn [length]; [lia|].
  specialize (IH (n / 16)). lia.
Qed.

Lemma hexDigitsOf_nonempty width n :
  (1 <= length (hexDigitsOf (S width) n))%nat.
Proof. cbn [hexDigitsOf length]. lia. Qed.

Lemma hexDigitsOf_digits width :
  forall n, Forall (fun d => 0 <= d < 16) (hexDigitsOf width n).
Proof.
  induction width as [|w IH]; intros n; cbn [hexDigitsOf]; constructor.
  - apply Z.mod_pos_bound. lia.
  - destruct (n / 16 =? 0); [constructor | apply IH].
Qed.

(** The digits denote the number, provided the width is enough for it. *)
Lemma hexDigitsOf_value width :
  forall n,
    0 <= n < 16 ^ Z.of_nat width ->
    fold_right (fun d acc => d + 16 * acc) 0 (hexDigitsOf width n) = n.
Proof.
  induction width as [|w IH]; intros n Hn.
  - cbn in *. lia.
  - cbn [hexDigitsOf fold_right].
    assert (Hq : 0 <= n / 16 < 16 ^ Z.of_nat w).
    { rewrite Nat2Z.inj_succ, Z.pow_succ_r in Hn by lia.
      split; [apply Z.div_pos; lia | apply Z.div_lt_upper_bound; lia]. }
    destruct (Z.eqb_spec (n / 16) 0) as [Hz|Hnz]; cbn [fold_right].
    + pose proof (Z.div_mod n 16). lia.
    + rewrite (IH _ Hq). pose proof (Z.div_mod n 16). lia.
Qed.

Lemma digitIndex_hexDigit d :
  0 <= d < 16 -> digitIndex (hexDigit d) hexDigits = d.
Proof.
  intros Hd.
  assert (H : d = 0 \/ d = 1 \/ d = 2 \/ d = 3 \/ d = 4 \/ d = 5 \/ d = 6
              \/ d = 7 \/ d = 8 \/ d = 9 \/ d = 10 \/ d = 11 \/ d = 12
              \/ d = 13 \/ d = 14 \/ d = 15) by lia.
  repeat (destruct H as [->|H]; [reflexivity|]). subst d. reflexivity.
Qed.

Lemma hexValue_digits ds :
  Forall (fun d => 0 <= d < 16) ds ->
  hexValue (map hexDigit (rev ds))
  = fold_right (fun d acc => d + 16 * acc) 0 ds.
Proof.
  unfold hexValue. induction 1 as [|d ds Hd _ IH]; [reflexivity|].
  cbn [rev fold_right]. rewrite map_app, fold_left_app. cbn [map fold_left].
  rewrite IH, (digitIndex_hexDigit d Hd). lia.
Qed.

(** X2: for a channel number below 2^32 the location string is the whole
    hexadecimal rendering: it has between one and eight characters, so the
    ten-byte buffer never cuts it, and reading it back as a hexadecimal
    number gives the channel number.  Two different channels therefore
    never get the same location. *)
Theorem channelLocation_is_complete_and_unique :
  forall id,
    0 <= id < 2 ^ 32 ->
    channelLocation id = format_x id
    /\ (1 <= length (channelLocation id) <= 8)%nat
    /\ hexValue (channelLocation id) = id
    /\ (forall id',
          0 <= id' < 2 ^ 32 ->
          channelLocation id = channelLocation id' -> id = id').
Proof.
  assert (Hcomplete : forall id, channelLocation id = format_x id).
  { intros id. unfold channelLocation, snprintf. apply firstn_all2.
    unfold format_x. rewrite length_map, length_rev.
    pose proof (hexDigitsOf_length digitsOfUnsigned id).
    unfold digitsOfUnsigned, sizeof_channelLocation in *. lia. }
  assert (Hvalue : forall id, 0 <= id < 2 ^ 32 ->
                              hexValue (channelLocation id) = id).
  { intros id Hid. rewrite Hcomplete. unfold format_x.
    rewrite hexValue_digits by apply hexDigitsOf_digits.
    apply hexDigitsOf_value. exact Hid. }
  intros id Hid. split; [apply Hcomplete|]. split; [|split].
  - rewrite Hcomplete. unfold format_x. rewrite length_map, length_rev.
    pose proof (hexDigitsOf_length digitsOfUnsigned id).
    pose proof (hexDigitsOf_nonempty 7 id).
    unfold digitsOfUnsigned in *. lia.
  - apply Hvalue, Hid.
  - intros id' Hid' Heq.
    rewrite <- (Hvalue id Hid), <- (Hvalue id' Hid'), Heq. reflexivity.
Qed.

Lemma channelLocation_is_complete_and_unique_witness :
  0 <= 0xE1E10 < 2 ^ 32
  /\ channelLocation 0xE1E10 = ["e"; "1"; "e"; "1"; "0"]%char.
Proof.
  split; [lia|].
  rewrite (proj1 (channelLocation_is_complete_and_unique 0xE1E10
                    ltac:(lia))).
  reflexivity.
Defined.

End AttachFacts.

(** ** Sequences of calls on a nub *)

Section NubCallFacts.

Import Run HyperVVMBusDevice NubCalls.

Lemma attach_channelIsOpen env d :
  channelIsOpen d = false ->
  channelIsOpen (state (attach env d)) = false.
Proof.
  destruct env as [sa cn pc], d as [o i t r c]. cbn. intros ->.
  destruct sa, cn, pc; reflexivity.
Qed.

Lemma detach_channelIsOpen d :
  channelIsOpen (state (detach d)) = channelIsOpen d.
Proof. destruct d as [o i t r c]. destruct o, c; reflexivity. Qed.

Lemma perform_channelIsOpen c d :
  channelIsOpen d = false ->
  channelIsOpen (state (perform c d)) = false.
Proof.
  intros Hd. destruct c as [env|tx rx ow ia env| |]; cbn [perform].
  - pose proof (attach_channelIsOpen env d Hd) as H.
    unfold bind, ret, state in *. destruct (attach env d) as [[b d'] e].
    exact H.
  - pose proof (openChannel_keeps_channelIsOpen tx rx ow ia env d) as H.
    unfold bind, ret, state in *.
    destruct (openChannel tx rx ow ia env d) as [[b d'] e].
    cbn in *. congruence.
  - rewrite closeChannel_keeps_channelIsOpen. exact Hd.
  - rewrite detach_channelIsOpen. exact Hd.
Qed.

Lemma performAll_cons c cs d :
  performAll (c :: cs) d
  = (tt, state (performAll cs (state (perform c d))),
     events (perform c d) ++ events (performAll cs (state (perform c d)))).
Proof.
  cbn [performAll]. unfold bind, state, events.
  destruct (perform c d) as [[u d1] e1]. cbn [fst snd].
  destruct (performAll cs d1) as [[[] d2] e2]. reflexivity.
Qed.

(** X3: no sequence of [attach], [openChannel], [closeChannel] and [detach]
    calls, whatever the environment answers, ever sets [channelIsOpen] on a
    nub on which it was false.  On every nub so reached [detach] only calls
    [super::detach], and [openChannel] does not take its early exit: it
    begins with [setupInterrupt]. *)
Theorem channelIsOpen_stays_false :
  forall cs d,
    channelIsOpen d = false ->
    channelIsOpen (state (performAll cs d)) = false
    /\ detach (state (performAll cs d))
       = (tt, state (performAll cs d), [SuperDetach])
    /\ (forall txSize rxSize owner intAction env,
          exists rest,
            events (openChannel txSize rxSize owner intAction env
                                (state (performAll cs d)))
            = SetupInterrupt (setupInterrupt_ok env) :: rest).
Proof.
  intros cs d Hd.
  assert (H : channelIsOpen (state (performAll cs d)) = false).
  { revert d Hd. induction cs as [|c cs IH]; intros d Hd; [exact Hd|].
    rewrite performAll_cons. cbn [state fst snd].
    apply IH, perform_channelIsOpen, Hd. }
  split; [exact H|].
  destruct (state (performAll cs d)) as [o i t r c]. cbn in H. subst o.
  split; [reflexivity|].
  intros txSize rxSize owner intAction [si cs' iv ov].
  destruct si, owner, intAction, cs'; eexists; reflexivity.
Qed.

Lemma channelIsOpen_stays_false_witness :
  channelIsOpen zeroed = false
  /\ channelIsOpen
       (state (performAll
                 [CallAttach (mkAttachAnswers true (Some 5) true);
                  CallOpenChannel 4096 4096 (Some 1%nat) (Some 2%nat)
                                  Samples.all_ok;
                  CallCloseChannel;
                  CallOpenChannel 4096 4096 None None Samples.all_ok]
                 zeroed)) = false.
Proof.
  split; [reflexivity|].
  apply (channelIsOpen_stays_false
           [CallAttach (mkAttachAnswers true (Some 5) true);
            CallOpenChannel 4096 4096 (Some 1%nat) (Some 2%nat)
                            Samples.all_ok;
            CallCloseChannel;
            CallOpenChannel 4096 4096 None None Samples.all_ok]
           zeroed).
  reflexivity.
Defined.

Lemma openChannel_channelId txSize rxSize owner intAction env d :
  channelId (state (openChannel txSize rxSize owner intAction env d))
  = channelId d.
Proof.
  destruct d as [o i t r c], env as [si cs iv ov].
  destruct o, si, owner, intAction, cs; reflexivity.
Qed.

Lemma openChannel_controller_calls txSize rxSize owner intAction env d e c :
  In e (events (openChannel txSize rxSize owner intAction env d)) ->
  controllerChannel e = Some c -> c = channelId d.
Proof.
  destruct d as [o i t r cs], env as [si cn iv ov].
  destruct o, si, owner, intAction, cn; cbn; intros H Hc;
    repeat (destruct H as [H|H]; [subst e; cbn in Hc; congruence|]);
    contradiction.
Qed.

Lemma perform_channelId c d :
  isAttach c = false ->
  channelId (state (perform c d)) = channelId d
  /\ (forall e ch,
        In e (events (perform c d)) -> controllerChannel e = Some ch ->
        ch = channelId d).
Proof.
  intros Hc. destruct c as [env|tx rx ow ia env| |]; [discriminate Hc| | |].
  - cbn [perform].
    pose proof (openChannel_channelId tx rx ow ia env d) as Hid.
    pose proof (openChannel_controller_calls tx rx ow ia env d) as Hev.
    unfold bind, ret, state, events in *.
    destruct (openChannel tx rx ow ia env d) as [[b d'] ev].
    cbn [fst snd] in *. rewrite app_nil_r. split; [exact Hid|].
    intros e ch. apply Hev.
  - destruct d as [o i t r cs]. destruct cs as [s|]; cbn; split;
      try reflexivity;
      intros e ch H Hch;
      repeat (destruct H as [H|H]; [subst e; discriminate Hch|]);
      contradiction.
  - destruct d as [o i t r cs]. destruct o, cs as [s|]; cbn; split;
      try reflexivity;
      intros e ch H Hch;
      repeat (destruct H as [H|H]; [subst e; discriminate Hch|]);
      contradiction.
Qed.

(** X4: [attach] is the only function that writes [channelId].  Through any
    sequence of [openChannel], [closeChannel] and [detach] calls the nub
    keeps its channel number, and every [initVMBusChannel] and
    [openVMBusChannel] call it makes on the controller names that
    channel. *)
Theorem nub_speaks_for_its_own_channel :
  forall cs d,
    forallb (fun c => negb (isAttach c)) cs = true ->
    channelId (state (performAll cs d)) = channelId d
    /\ (forall e channel,
          In e (events (performAll cs d)) ->
          controllerChannel e = Some channel ->
          channel = channelId d).
Proof.
  induction cs as [|c cs IH]; intros d Hcs.
  - split; [reflexivity|]. intros e ch [].
  - cbn [forallb] in Hcs. apply andb_prop in Hcs. destruct Hcs as [Hc Hcs].
    apply negb_true_iff in Hc.
    destruct (perform_channelId c d Hc) as [Hid Hev].
    destruct (IH (state (perform c d)) Hcs) as [Hid' Hev'].
    rewrite performAll_cons. cbn [state events fst snd].
    split; [congruence|].
    intros e ch Hin Hch. apply in_app_or in Hin. destruct Hin as [Hin|Hin].
    + exact (Hev e ch Hin Hch).
    + rewrite <- Hid. exact (Hev' e ch Hin Hch).
Qed.

Lemma nub_speaks_for_its_own_channel_witness :
  forallb (fun c => negb (isAttach c))
          [CallOpenChannel 4096 4096 None None Samples.all_ok;
           CallCloseChannel;
           CallOpenChannel 8192 8192 None None Samples.host_rejects_open]
  = true
  /\ channelId
       (state (performAll
                 [CallOpenChannel 4096 4096 None None Samples.all_ok;
                  CallCloseChannel;
                  CallOpenChannel 8192 8192 None None
                                  Samples.host_rejects_open]
                 Samples.attached)) = 5.
Proof.
  split; [reflexivity|].
  apply (nub_speaks_for_its_own_channel
           [CallOpenChannel 4096 4096 None None Samples.all_ok;
            CallCloseChannel;
            CallOpenChannel 8192 8192 None None Samples.host_rejects_open]
           Samples.attached).
  reflexivity.
Defined.

(** X5: unless both an owner and an interrupt action are passed,
    [openChannel] leaves [childInterruptSource] alone and makes no call on
    an interrupt event source: none is created, added to the work loop or
    enabled. *)
Theorem openChannel_without_owner_or_action_has_no_child_source :
  forall txSize rxSize owner intAction env d,
    owner = None \/ intAction = None ->
    childInterruptSource
      (state (openChannel txSize rxSize owner intAction env d))
    = childInterruptSource d
    /\ forallb (fun e => negb (touchesChildSource e))
               (events (openChannel txSize rxSize owner intAction env d))
       = true.
Proof.
  intros txSize rxSize owner intAction [si cs iv ov] [o i t r c] H.
  destruct H as [-> | ->]; destruct o, si, cs;
    try destruct owner; try destruct intAction; split; reflexivity.
Qed.

Lemma openChannel_without_owner_or_action_has_no_child_source_witness :
  (Some 1%nat = None \/ @None nat = None)
  /\ childInterruptSource
       (state (openChannel 4096 4096 (Some 1%nat) None Samples.all_ok
                           Samples.attached)) = None.
Proof.
  split; [right; reflexivity|].
  apply (openChannel_without_owner_or_action_has_no_child_source
           4096 4096 (Some 1%nat) None Samples.all_ok Samples.attached).
  right. reflexivity.
Defined.



End NubCallFacts.

(** ** Starting the keyboard driver *)

Section StartFacts.

Import Run HyperVKeyboard.

Variable kHyperVKeyboardRingBufferSize : UInt32.
Variable kHyperVKeyboardVersion : UInt32.

Local Abbreviation start :=
  (HyperVKeyboard.start kHyperVKeyboardRingBufferSize kHyperVKeyboardVersion).

(** Split the answers and the driver into their members and run [start] on
    every combination of the truth values among them. *)
Ltac start_cases env k :=
  destruct env as [ss pn src [si cs iv ov]], k as [hv isrc [o i t r c]];
  destruct ss, pn, src as [s0|], o, si; cbn.

(** X7: [start] returns true exactly when [super::start] succeeded, the
    provider is a VMBus nub, the interrupt event source was created, and
    the nub's [setupInterrupt] succeeded (or the nub already counted as
    open).  Whether the controller set the buffers up and whether the host
    accepted the open plays no part.  [start] runs into the NULL pointer
    exactly when the first two hold and the source was not created. *)
Theorem start_result_does_not_depend_on_the_host :
  forall env k,
    (result (start env k) = Some true <->
     superStart_ok env = true /\ providerIsNub env = true
     /\ interruptSource_new env <> None
     /\ (HyperVVMBusDevice.channelIsOpen (provider k) = true
         \/ HyperVVMBusDevice.setupInterrupt_ok (openAnswers env) = true))
    /\ (result (start env k) = None <->
        superStart_ok env = true /\ providerIsNub env = true
        /\ interruptSource_new env = None)
    /\ (forall init open,
          result (start
                    (mkStartAnswers (superStart_ok env) (providerIsNub env)
                       (interruptSource_new env)
                       (Spec.with_provider_results (openAnswers env)
                                                   init open)) k)
          = result (start env k)).
Proof.
  intros env k. split; [|split].
  - start_cases env k;
      intuition (try discriminate; try congruence).
  - start_cases env k;
      intuition (try discriminate; try congruence).
  - intros init open. start_cases env k; reflexivity.
Qed.

(** X8: [super::stop] is called exactly on the paths on which
    [super::start] had succeeded and [start] returns false, and it is then
    the last call [start] makes; a [start] that returns true, or whose
    [super::start] failed, never calls it. *)
Theorem start_stops_the_superclass_on_failure :
  forall env k,
    (In SuperStop (events (start env k)) <->
     superStart_ok env = true /\ result (start env k) = Some false)
    /\ (In SuperStop (events (start env k)) ->
        exists before,
          events (start env k) = before ++ [SuperStop]
          /\ ~ In SuperStop before).
Proof.
  intros env k. split.
  - start_cases env k;
      intuition (try discriminate; try congruence).
  - intros Hin. exists (removelast (events (start env k))).
    revert Hin. start_cases env k;
      intuition (try discriminate; try congruence).
Qed.

(** X9: a [start] that returns true has kept the interrupt event source it
    created: the source is in the member, it was enabled and was neither
    disabled nor released; the driver holds the nub; and the last thing
    [start] did was to send the protocol request of [connectKeyboard], with
    a completion requested. *)
Theorem successful_start_leaves_the_driver_connected :
  forall env k,
    result (start env k) = Some true ->
    exists s,
      interruptSource_new env = Some s
      /\ interruptSource (state (start env k)) = Some s
      /\ hvDevice (state (start env k)) = true
      /\ In (Enable s) (events (start env k))
      /\ ~ In (Disable s) (events (start env k))
      /\ ~ In (Release s) (events (start env k))
      /\ exists before,
           events (start env k)
           = before
             ++ [WriteInbandProtocolRequest kHyperVKeyboardVersion true].
Proof.
  intros env k Hres.
  destruct (interruptSource_new env) as [s|] eqn:Hsrc.
  - exists s. split; [reflexivity|].
    assert (Hlast : exists before,
               events (start env k)
               = before
                 ++ [WriteInbandProtocolRequest kHyperVKeyboardVersion
                                                true]).
    { exists (removelast (events (start env k))).
      revert Hres Hsrc. start_cases env k; intros Hres Hsrc;
        try discriminate Hres; reflexivity. }
    revert Hres Hsrc Hlast. start_cases env k; intros Hres Hsrc Hlast;
      try discriminate Hres; injection Hsrc as ->;
      (repeat split; [tauto | | | exact Hlast]);
      intros H; repeat (destruct H as [H|H]; [discriminate H|]);
      exact H.
  - exfalso. revert Hres Hsrc. start_cases env k; intros Hres Hsrc;
      discriminate.
Qed.

End StartFacts.

Section StartRuns.

Import Run HyperVKeyboard.

Lemma start_result_does_not_depend_on_the_host_witness :
  result (HyperVKeyboard.start KeyboardSamples.ringSize
            KeyboardSamples.version
            (mkStartAnswers true true (Some 9%nat)
                            Samples.host_rejects_open)
            KeyboardSamples.fresh_driver) = Some true.
Proof.
  apply (proj2 (proj1 (start_result_does_not_depend_on_the_host
           KeyboardSamples.ringSize KeyboardSamples.version
           (mkStartAnswers true true (Some 9%nat) Samples.host_rejects_open)
           KeyboardSamples.fresh_driver))).
  split; [reflexivity|]. split; [reflexivity|].
  split; [discriminate | right; reflexivity].
Defined.

Lemma start_stops_the_superclass_on_failure_witness :
  In SuperStop
     (events (HyperVKeyboard.start KeyboardSamples.ringSize
                KeyboardSamples.version KeyboardSamples.open_fails
                KeyboardSamples.fresh_driver))
  /\ superStart_ok KeyboardSamples.open_fails = true
  /\ result (HyperVKeyboard.start KeyboardSamples.ringSize
               KeyboardSamples.version KeyboardSamples.open_fails
               KeyboardSamples.fresh_driver) = Some false.
Proof.
  assert (Hin : In SuperStop
                   (events (HyperVKeyboard.start KeyboardSamples.ringSize
                              KeyboardSamples.version
                              KeyboardSamples.open_fails
                              KeyboardSamples.fresh_driver))).
  { cbn. tauto. }
  split; [exact Hin|].
  apply (proj1 (start_stops_the_superclass_on_failure
                  KeyboardSamples.ringSize KeyboardSamples.version
                  KeyboardSamples.open_fails KeyboardSamples.fresh_driver)).
  exact Hin.
Defined.

Lemma successful_start_leaves_the_driver_connected_witness :
  result (HyperVKeyboard.start KeyboardSamples.ringSize
            KeyboardSamples.version
            (mkStartAnswers true true (Some 9%nat) Samples.all_ok)
            KeyboardSamples.fresh_driver) = Some true
  /\ exists s,
       interruptSource
         (state (HyperVKeyboard.start KeyboardSamples.ringSize
                   KeyboardSamples.version
                   (mkStartAnswers true true (Some 9%nat) Samples.all_ok)
                   KeyboardSamples.fresh_driver)) = Some s.
Proof.
  split; [reflexivity|].
  destruct (successful_start_leaves_the_driver_connected
              KeyboardSamples.ringSize KeyboardSamples.version
              (mkStartAnswers true true (Some 9%nat) Samples.all_ok)
              KeyboardSamples.fresh_driver eq_refl)
    as (s & _ & Hs & _).
  exists s. exact Hs.
Defined.

End StartRuns.

(** ** What a drain delivers *)

Section DeliveryFacts.

Import Run HyperVKeyboard DrainLog KeyboardLog.

Variable kADBConverterExStart : Z.
Variable PS2ToADBMapStock : Z -> UInt8.

Local Abbreviation drainPacket :=
  (HyperVKeyboard.drainPacket kADBConverterExStart PS2ToADBMapStock).
Local Abbreviation handleInterrupt :=
  (HyperVKeyboard.handleInterrupt kADBConverterExStart PS2ToADBMapStock).
Local Abbreviation keystrokes :=
  (KeyboardLog.keystrokes kADBConverterExStart PS2ToADBMapStock).

Lemma dispatched_app l1 l2 :
  dispatched (l1 ++ l2) = dispatched l1 ++ dispatched l2.
Proof. apply flat_map_app. Qed.

Lemma reads_app l1 l2 : reads (l1 ++ l2) = reads l1 ++ reads l2.
Proof. apply flat_map_app. Qed.

Lemma keystrokes_app ps1 ps2 :
  keystrokes (ps1 ++ ps2) = keystrokes ps1 ++ keystrokes ps2.
Proof. apply flat_map_app. Qed.

Lemma processed_app_refusal ps rest :
  processed (map Some ps ++ None :: rest) = ps.
Proof. induction ps as [|p ps IH]; cbn; [|rewrite IH]; reflexivity. Qed.

Lemma processed_all ps : processed (map Some ps) = ps.
Proof. induction ps as [|p ps IH]; cbn; [|rewrite IH]; reflexivity. Qed.

(** One pass through the loop body reads once and dispatches the packet's
    keystroke, if it carries one and the read succeeded. *)
Lemma drainPacket_delivers p h :
  dispatched (events (drainPacket p h)) = keystrokes [p]
  /\ reads (events (drainPacket p h)) = [(pktDataLength p, readStatus p)].
Proof.
  destruct p as [len st msg up], h as [lv fr].
  unfold HyperVKeyboard.drainPacket, KeyboardLog.keystrokes, sizeof_data128,
    bind, ret, call, ioMalloc, ioFree, events.
  cbn [pktDataLength readStatus message uptime live fresh flat_map].
  destruct (len <=? 128), (128 <? len), (st =? IOKit.kIOReturnSuccess);
    try destruct msg; split; reflexivity.
Qed.

Lemma handleInterrupt_result script :
  forall h, result (handleInterrupt script h) = pending script.
Proof.
  induction script as [|[p|] rest IH]; intros h; [reflexivity| |reflexivity].
  rewrite (handleInterrupt_step _ _ p rest h). cbn [result fst pending].
  apply IH.
Qed.

Lemma handleInterrupt_dispatched_step p rest h :
  dispatched (events (handleInterrupt (Some p :: rest) h))
  = keystrokes [p]
    ++ dispatched (events (handleInterrupt rest (state (drainPacket p h)))).
Proof.
  rewrite (handleInterrupt_step _ _ p rest h). cbn [events snd].
  change (NextInbandPacketAvailable (Some (pktDataLength p))
          :: events (drainPacket p h)
             ++ events (handleInterrupt rest (state (drainPacket p h))))
    with ([NextInbandPacketAvailable (Some (pktDataLength p))]
          ++ events (drainPacket p h)
             ++ events (handleInterrupt rest (state (drainPacket p h)))).
  rewrite !dispatched_app, (proj1 (drainPacket_delivers p h)). reflexivity.
Qed.

(** X10: the keyboard events of a drain are the keystrokes of the packets
    before the first answer that no packet is available, one per keystroke
    message whose read succeeded, in arrival order; each carries the key
    code that [getKeyCode] finds, is a key-down unless [isBreak] is set, and
    is stamped with the clock read for that packet.  Packets whose read
    failed and messages of any other type dispatch nothing. *)
Theorem handleInterrupt_dispatches_the_keystrokes_in_order :
  forall script h,
    dispatched (events (handleInterrupt script h))
    = keystrokes (processed script).
Proof.
  induction script as [|[p|] rest IH]; intros h; [reflexivity| |reflexivity].
  rewrite handleInterrupt_dispatched_step, IH. cbn [processed].
  change (p :: processed rest) with ([p] ++ processed rest).
  rewrite keystrokes_app. reflexivity.
Qed.

(** X11: every packet that was announced is read exactly once, with the
    announced length, in arrival order; a read that fails does not stop the
    drain, the following packets are still read. *)
Theorem handleInterrupt_reads_every_announced_packet_once :
  forall script h,
    reads (events (handleInterrupt script h))
    = map (fun p => (pktDataLength p, readStatus p)) (processed script).
Proof.
  induction script as [|[p|] rest IH]; intros h; [reflexivity| |reflexivity].
  rewrite (handleInterrupt_step _ _ p rest h). cbn [events snd processed map].
  change (NextInbandPacketAvailable (Some (pktDataLength p))
          :: events (drainPacket p h)
             ++ events (handleInterrupt rest (state (drainPacket p h))))
    with ([NextInbandPacketAvailable (Some (pktDataLength p))]
          ++ events (drainPacket p h)
             ++ events (handleInterrupt rest (state (drainPacket p h)))).
  rewrite !reads_app, IH, (proj2 (drainPacket_delivers p h)). reflexivity.
Qed.

(** X12: when the nub answers that no packet is available while more
    packets follow, the drain hands back exactly the answers it has not
    used, and draining them at the next interrupt completes the same
    sequence of keyboard events that a single uninterrupted drain
    dispatches: keystrokes are postponed, never lost, repeated or
    reordered. *)
Theorem two_drains_deliver_what_one_does :
  forall ps1 ps2 h,
    result (handleInterrupt (map Some ps1 ++ None :: map Some ps2) h)
    = map Some ps2
    /\ dispatched
         (events (handleInterrupt (map Some ps1 ++ None :: map Some ps2) h))
       ++ dispatched
            (events
               (handleInterrupt
                  (result (handleInterrupt
                             (map Some ps1 ++ None :: map Some ps2) h))
                  (state (handleInterrupt
                            (map Some ps1 ++ None :: map Some ps2) h))))
       = dispatched (events (handleInterrupt (map Some (ps1 ++ ps2)) h)).
Proof.
  intros ps1 ps2 h. split.
  - apply (handleInterrupt_leaves_at_first_refusal
             kADBConverterExStart PS2ToADBMapStock ps1 (map Some ps2) h).
  - revert h. induction ps1 as [|p ps1 IH]; intros h; [reflexivity|].
    cbn [map app]. rewrite !handleInterrupt_dispatched_step.
    rewrite (handleInterrupt_step _ _ p (map Some ps1 ++ None :: map Some ps2)
                                  h).
    cbn [result state fst snd]. rewrite <- app_assoc. f_equal.
    apply IH.
Qed.

Lemma Dispatch_no_allocator handled :
  Dispatch handled ->
  forallb (fun e => negb (isAllocatorCall e)) handled = true.
Proof. intros Hd. destruct Hd; reflexivity. Qed.

(** X13: a drain in which every packet has at most 128 bytes never calls
    the allocator and leaves the heap exactly as it was, the next address
    to hand out included. *)
Theorem small_packets_are_drained_without_the_allocator :
  forall script h,
    Forall (fun p => pktDataLength p <= 128) (processed script) ->
    state (handleInterrupt script h) = h
    /\ forallb (fun e => negb (isAllocatorCall e))
               (events (handleInterrupt script h)) = true.
Proof.
  induction script as [|[p|] rest IH]; intros h Hsmall;
    [split; reflexivity| |split; reflexivity].
  cbn [processed] in Hsmall. inversion Hsmall as [|p' ps Hp Hrest]; subst.
  rewrite (handleInterrupt_step _ _ p rest h). cbn [state events fst snd].
  destruct (drainPacket_run kADBConverterExStart PS2ToADBMapStock p h)
    as (handled & Hd & [[_ Heq]|[Hgt _]]); [|lia].
  rewrite Heq. cbn [state events fst snd].
  destruct (IH h Hrest) as [Hstate Hcalls].
  split; [exact Hstate|].
  cbn [forallb isAllocatorCall negb andb app].
  rewrite forallb_app, (Dispatch_no_allocator _ Hd), Hcalls. reflexivity.
Qed.

End DeliveryFacts.

Section DeliveryRuns.

Import Run HyperVKeyboard KeyboardLog KeyboardSamples.

Lemma small_packets_are_drained_without_the_allocator_witness :
  Forall (fun p => pktDataLength p <= 128)
         (processed [Some small_key; Some small_key; None; Some large_key])
  /\ state (handleInterrupt exStart table
              [Some small_key; Some small_key; None; Some large_key]
              empty_heap) = empty_heap.
Proof.
  assert (Hsmall : Forall (fun p => pktDataLength p <= 128)
                     (processed [Some small_key; Some small_key; None;
                                 Some large_key])).
  { cbn. repeat constructor; discriminate. }
  split; [exact Hsmall|].
  apply (small_packets_are_drained_without_the_allocator
           exStart table
           [Some small_key; Some small_key; None; Some large_key]
           empty_heap Hsmall).
Defined.

End DeliveryRuns.

(** ** The default keymap *)

Section KeymapFacts.

Import Keymap.

(** X14: whatever the values of the event constants, the default keymap
    follows the layout its comments describe, to the last byte: 11 modifier
    entries, 162 key definitions, 17 sequences and 14 special keys, with
    nothing left over; the size stored through [length] is 1190; and every
    key code that the modifier and special-key sections name has a key
    definition (it is below 162). *)
Theorem default_keymap_is_well_formed :
  forall nx,
    snd (defaultKeymapOfLength nx) = 1190
    /\ exists km,
         parse (fst (defaultKeymapOfLength nx)) = Some (km, [])
         /\ length (modifiers km) = 11%nat
         /\ length (keys km) = 162%nat
         /\ length (sequences km) = 17%nat
         /\ length (specials km) = 14%nat
         /\ Forall (fun code => 0 <= code < Z.of_nat (length (keys km)))
                   (namedKeyCodes km).
Proof.
  intros nx. split; [reflexivity|].
  eexists. split; [vm_compute; reflexivity|].
  repeat (split; [reflexivity|]).
  apply Forall_forall. intros code Hin.
  match type of Hin with
  | In _ (namedKeyCodes ?km) =>
      assert (Hall : forallb (fun c => (0 <=? c) && (c <? 162))
                             (namedKeyCodes km) = true) by reflexivity;
      assert (Hkeys : Z.of_nat (length (keys km)) = 162) by reflexivity
  end.
  rewrite forallb_forall in Hall. specialize (Hall code Hin).
  apply andb_prop in Hall. destruct Hall as [H0 H1].
  apply Z.leb_le in H0. apply Z.ltb_lt in H1.
  rewrite Hkeys. lia.
Qed.

End KeymapFacts.

(** ** The iterations of a drain *)

Section IterationFacts.

Import Run HyperVKeyboard DrainLog KeyboardLog DrainIterations.

Variable kADBConverterExStart : Z.
Variable PS2ToADBMapStock : Z -> UInt8.

Local Abbreviation drainPacket :=
  (HyperVKeyboard.drainPacket kADBConverterExStart PS2ToADBMapStock).
Local Abbreviation handleInterrupt :=
  (HyperVKeyboard.handleInterrupt kADBConverterExStart PS2ToADBMapStock).

Lemma mallocs_app l1 l2 : mallocs (l1 ++ l2) = mallocs l1 ++ mallocs l2.
Proof. apply flat_map_app. Qed.

Lemma frees_app l1 l2 : frees (l1 ++ l2) = frees l1 ++ frees l2.
Proof. apply flat_map_app. Qed.

Lemma Dispatch_allocator_free handled :
  Dispatch handled -> mallocs handled = [] /\ frees handled = [].
Proof. intros Hd. destruct Hd; split; reflexivity. Qed.

(** The allocator calls of one pass through the loop body. *)
Lemma drainPacket_allocator_calls p h :
  mallocs (events (drainPacket p h)) = largeLengths [p]
  /\ frees (events (drainPacket p h)) = largeLengths [p].
Proof.
  unfold largeLengths. cbn [map filter].
  destruct (drainPacket_run kADBConverterExStart PS2ToADBMapStock p h)
    as (handled & Hd & [[Hle Heq]|[Hgt Heq]]);
    rewrite Heq; cbn [events snd];
    destruct (Dispatch_allocator_free handled Hd) as [Hm Hf];
    destruct (Z.ltb_spec 128 (pktDataLength p)) as [Hlt|Hge]; try lia.
  - change (ReadInbandCompletionPacket data128 (pktDataLength p)
              (readStatus p) :: handled)
      with ([ReadInbandCompletionPacket data128 (pktDataLength p)
               (readStatus p)] ++ handled).
    rewrite mallocs_app, frees_app, Hm, Hf. split; reflexivity.
  - change (IOMalloc (fresh h) (pktDataLength p)
            :: ReadInbandCompletionPacket (heapBlock (fresh h))
                 (pktDataLength p) (readStatus p)
            :: handled ++ [IOFree (heapBlock (fresh h)) (pktDataLength p)])
      with ([IOMalloc (fresh h) (pktDataLength p);
             ReadInbandCompletionPacket (heapBlock (fresh h))
               (pktDataLength p) (readStatus p)]
            ++ handled ++ [IOFree (heapBlock (fresh h)) (pktDataLength p)]).
    rewrite !mallocs_app, !frees_app, Hm, Hf. split; reflexivity.
Qed.

Lemma largeLengths_cons p ps :
  largeLengths (p :: ps) = largeLengths [p] ++ largeLengths ps.
Proof.
  unfold largeLengths. cbn [map filter].
  destruct (128 <? pktDataLength p); reflexivity.
Qed.

Lemma handleInterrupt_iterations script :
  forall h,
    Iterations (processed script) (events (handleInterrupt script h)).
Proof.
  induction script as [|[p|] rest IH]; intros h.
  - apply iterations_exit.
  - rewrite (handleInterrupt_step _ _ p rest h). cbn [events snd processed].
    specialize (IH (state (drainPacket p h))).
    destruct (drainPacket_run kADBConverterExStart PS2ToADBMapStock p h)
      as (handled & Hd & [[Hle Heq]|[Hgt Heq]]);
      rewrite Heq in *; cbn [events state fst snd app] in *.
    + apply iterations_small; assumption.
    + rewrite <- app_assoc. cbn [app]. apply iterations_large; assumption.
  - apply iterations_exit.
Qed.

Lemma handleInterrupt_allocator_calls script :
  forall h,
    mallocs (events (handleInterrupt script h))
    = largeLengths (processed script)
    /\ frees (events (handleInterrupt script h))
       = largeLengths (processed script).
Proof.
  induction script as [|[p|] rest IH]; intros h;
    [split; reflexivity| |split; reflexivity].
  rewrite (handleInterrupt_step _ _ p rest h). cbn [events snd processed].
  change (NextInbandPacketAvailable (Some (pktDataLength p))
          :: events (drainPacket p h)
             ++ events (handleInterrupt rest (state (drainPacket p h))))
    with ([NextInbandPacketAvailable (Some (pktDataLength p))]
          ++ events (drainPacket p h)
             ++ events (handleInterrupt rest (state (drainPacket p h)))).
  destruct (IH (state (drainPacket p h))) as [IHm IHf].
  destruct (drainPacket_allocator_calls p h) as [Hm Hf].
  rewrite (largeLengths_cons p (processed rest)).
  rewrite !mallocs_app, !frees_app, IHm, IHf, Hm, Hf.
  split; reflexivity.
Qed.

(** C10: the log of [handleInterrupt] consists of one iteration for each
    packet offered before the first answer that no packet is available, and
    of the final question that gets this answer; nothing after that answer
    is consumed.  In each iteration a block of [pktDataLength] bytes is
    allocated exactly when [pktDataLength] exceeds 128, and the block is
    freed, with that length, before the loop asks for the next packet,
    whatever the read returned.  Over the whole drain [IOMalloc] and
    [IOFree] are called once each for every packet longer than 128 bytes,
    in packet order, and for no other; the live blocks are afterwards what
    they were before. *)
Theorem handleInterrupt_allocates_exactly_for_large_packets :
  forall script h,
    Iterations (processed script) (events (handleInterrupt script h))
    /\ mallocs (events (handleInterrupt script h))
       = largeLengths (processed script)
    /\ frees (events (handleInterrupt script h))
       = largeLengths (processed script)
    /\ live (state (handleInterrupt script h)) = live h
    /\ result (handleInterrupt script h) = pending script.
Proof.
  intros script h.
  destruct (handleInterrupt_allocator_calls script h) as [Hm Hf].
  split; [apply handleInterrupt_iterations|].
  split; [exact Hm|]. split; [exact Hf|].
  split.
  - apply (handleInterrupt_live kADBConverterExStart PS2ToADBMapStock).
  - apply (handleInterrupt_result kADBConverterExStart PS2ToADBMapStock).
Qed.

End IterationFacts.
